(** * Weather ETL pipeline: a shallow embedding and its checked properties

    The development follows the Python sources
    [data_extraction.py], [data_transformation.py], [data_analysis.py] and
    [dags/weather_utils.py].

    Conventions of the embedding
    - a pandas [DataFrame] is a list of column labels together with a list of
      rows; a row maps a label to a cell and a label it does not hold reads
      as [Null] (pandas' NaN fill);
    - a float is an exact rational ([Q]): the statistics of the pipeline
      (sum, mean, min, max, difference, variance) are rational operations,
      and the one square root (the standard deviation) only occurs in
      comparisons, which are written on the squares;
    - a pandas [Timestamp] is a number of seconds since 1970-01-01T00:00,
      its calendar fields are computed from it;
    - a Python exception is a value of [Exception], a call that can raise
      returns a [Result];
    - [pd.to_datetime] is library code and is a parameter of the functions
      that call it. *)

From Stdlib Require Import QArith Qminmax Lqa ZArith Lia String Ascii List.
From stdpp Require Import gmap strings list sorting pretty.

Open Scope string_scope.
Open Scope list_scope.

Set Warnings "-register-all".

(** ** Cells, exceptions, results *)

Inductive Cell :=
| Null
| Num (q : Q)
| Str (s : string).

Inductive Exception :=
| ValueError (msg : string)
| FileNotFoundError (msg : string)
| KeyError (key : string)
| TypeError (msg : string)
| IndexError (msg : string)
| ParserError (msg : string)
| DatabaseError (msg : string).

(** [str(e)] *)
Definition exc_str (e : Exception) : string :=
  match e with
  | ValueError m | FileNotFoundError m | TypeError m
  | IndexError m | ParserError m | DatabaseError m => m
  | KeyError k => "'" +:+ k +:+ "'"
  end.

Inductive Result (A : Type) :=
| Ok (a : A)
| Raise (e : Exception).
Arguments Ok {A} a.
Arguments Raise {A} e.

(** Sequencing: an exception of the first call skips the rest. *)
Definition bindR {A B} (m : Result A) (f : A -> Result B) : Result B :=
  match m with
  | Ok a => f a
  | Raise e => Raise e
  end.

Notation "'let*' x := m 'in' k" := (bindR m (fun x => k))
  (at level 10, x name, m at level 100, k at level 200).

Definition is_ok {A} (r : Result A) : bool :=
  match r with Ok _ => true | Raise _ => false end.

(** Run [f] over a list, stopping at the first exception. *)
Fixpoint mapR {A B} (f : A -> Result B) (l : list A) : Result (list B) :=
  match l with
  | [] => Ok []
  | x :: xs =>
      match f x with
      | Raise e => Raise e
      | Ok y => match mapR f xs with
                | Raise e => Raise e
                | Ok ys => Ok (y :: ys)
                end
      end
  end.

(** ** Data frames *)

Abbreviation Row := (gmap string Cell).

Record DataFrame := mkFrame {
  columns : list string;
  rows : list Row
}.

Definition cell (r : Row) (c : string) : Cell := default Null (r !! c).

Definition has_column (df : DataFrame) (c : string) : bool :=
  bool_decide (c ∈ columns df).

Definition is_null (c : Cell) : bool :=
  match c with Null => true | _ => false end.

(** [df[c]] *)
Definition get_column (df : DataFrame) (c : string) : Result (list Cell) :=
  if has_column df c then Ok ((fun r => cell r c) <$> rows df)
  else Raise (KeyError c).

(** [df[c] = v] with a scalar [v]: an existing column is overwritten in
    place, a new one is appended last. *)
Definition set_scalar (df : DataFrame) (c : string) (v : Cell) : DataFrame :=
  {| columns := if has_column df c then columns df else columns df ++ [c];
     rows := (fun r => <[c := v]> r) <$> rows df |}.

(** [df.drop(c, axis=1)] *)
Definition drop_column (df : DataFrame) (c : string) : Result DataFrame :=
  if has_column df c then
    Ok {| columns := List.filter (fun x => negb (String.eqb x c)) (columns df);
          rows := (fun r => delete c r) <$> rows df |}
  else Raise (KeyError c).

(** [df[cols].copy()] *)
Definition select_row (cols : list string) (r : Row) : Row :=
  list_to_map ((fun c => (c, cell r c)) <$> cols).

Definition select_columns (df : DataFrame) (cols : list string) : DataFrame :=
  {| columns := cols; rows := select_row cols <$> rows df |}.

(** ** Timestamps and dates *)

Definition Timestamp := Z.

(** Days since 1970-01-01: what [.dt.date] keeps of a timestamp. *)
Definition date_of (ts : Timestamp) : Z := (ts `div` 86400)%Z.

(** Proleptic Gregorian calendar fields of a day number. *)
Definition civil_from_days (z0 : Z) : Z * Z * Z :=
  (let z := z0 + 719468 in
   let era := z `div` 146097 in
   let doe := z - era * 146097 in
   let yoe := (doe - doe `div` 1460 + doe `div` 36524 - doe `div` 146096) `div` 365 in
   let y := yoe + era * 400 in
   let doy := doe - (365 * yoe + yoe `div` 4 - yoe `div` 100) in
   let mp := (5 * doy + 2) `div` 153 in
   let d := doy - (153 * mp + 2) `div` 5 + 1 in
   let m := if mp <? 10 then mp + 3 else mp - 9 in
   (if m <=? 2 then y + 1 else y, m, d))%Z.

Definition days_from_civil (y0 m d : Z) : Z :=
  (let y := if m <=? 2 then y0 - 1 else y0 in
   let era := y `div` 400 in
   let yoe := y - era * 400 in
   let doy := (153 * (if 2 <? m then m - 3 else m + 9) + 2) `div` 5 + d - 1 in
   let doe := yoe * 365 + yoe `div` 4 - yoe `div` 100 + doy in
   era * 146097 + doe - 719468)%Z.

(** [.dt.year], [.dt.month] *)
Definition ts_year (ts : Timestamp) : Z := (civil_from_days (date_of ts)).1.1.
Definition ts_month (ts : Timestamp) : Z := (civil_from_days (date_of ts)).1.2.

Definition pad2 (n : Z) : string :=
  if (n <? 10)%Z then "0" +:+ pretty n else pretty n.

Definition pad4 (n : Z) : string :=
  if (n <? 10)%Z then "000" +:+ pretty n
  else if (n <? 100)%Z then "00" +:+ pretty n
  else if (n <? 1000)%Z then "0" +:+ pretty n
  else pretty n.

(** [.dt.strftime('%Y-%m')] *)
Definition strftime_Y_m (ts : Timestamp) : string :=
  pad4 (ts_year ts) +:+ "-" +:+ pad2 (ts_month ts).

(** An instance of the timestamp parser for the feed's own format,
    [YYYY-MM-DD] optionally followed by [ HH:MM]; used to run the model on
    concrete batches. *)
Fixpoint digits_go (acc : Z) (s : string) : option Z :=
  match s with
  | EmptyString => Some acc
  | String a s' =>
      match Ascii.is_nat a with
      | Some d => digits_go (acc * 10 + Z.of_nat d)%Z s'
      | None => None
      end
  end.

Definition digits (s : string) : option Z :=
  match s with
  | EmptyString => None
  | _ => digits_go 0%Z s
  end.

Definition parse_iso (s : string) : option Timestamp :=
  y ← digits (substring 0 4 s);
  m ← digits (substring 5 2 s);
  d ← digits (substring 8 2 s);
  guard (String.eqb (substring 4 1 s) "-" && String.eqb (substring 7 1 s) "-");;
  if (String.length s =? 10)%nat then
    Some (days_from_civil y m d * 86400)%Z
  else
    hh ← digits (substring 11 2 s);
    mi ← digits (substring 14 2 s);
    guard (String.eqb (substring 10 1 s) " " && String.eqb (substring 13 1 s) ":"
           && (String.length s =? 16)%nat);;
    Some (days_from_civil y m d * 86400 + hh * 3600 + mi * 60)%Z.

(** ** Monthly aggregation: [transform_weather_data] *)

(** The [if ... in df.columns / elif ... in df.columns] chain that resolves
    a logical field: the first of the two labels that is a column. *)
Definition resolve_column (first second : string) (df : DataFrame) : option string :=
  if has_column df first then Some first
  else if has_column df second then Some second
  else None.

Record MonthlyAggregate := mkAggregate {
  station_id : string;
  year : Z;
  month : Z;
  temperature_celsius_avg : Q;
  temperature_celsius_min : Q;
  temperature_celsius_max : Q;
  date_month : string
}.

(** One row that reaches the [groupby]: its three key parts, its month
    label and its temperature. *)
Record Obs := mkObs {
  obs_station : string;
  obs_year : Z;
  obs_month : Z;
  obs_label : string;
  obs_temp : Q
}.

Definition Key := (string * Z * Z)%type.

Definition obs_key (o : Obs) : Key := (obs_station o, obs_year o, obs_month o).

(** Lexicographic order of the group keys (station, year, month): the
    order in which [groupby] (sort=True) lists the groups. *)
Definition key_le (a b : Key) : Prop :=
  (a.1.1 ≠ b.1.1 ∧ String.le a.1.1 b.1.1) ∨
  (a.1.1 = b.1.1 ∧ ((a.1.2 < b.1.2)%Z ∨ (a.1.2 = b.1.2 ∧ (a.2 ≤ b.2)%Z))).

#[global] Instance key_le_dec : RelDecision key_le.
Proof. intros a b. unfold key_le. apply _. Defined.

Definition Qsum (l : list Q) : Q := foldr Qplus 0%Q l.

(** pandas' [mean], [min], [max] of a series without nulls; on the empty
    series they are NaN, which no caller below can reach. *)
Definition mean (l : list Q) : Q := (Qsum l / inject_Z (Z.of_nat (length l)))%Q.

Definition minimum (l : list Q) : Q :=
  match l with
  | [] => 0%Q
  | x :: xs => foldl Qmin x xs
  end.

Definition maximum (l : list Q) : Q :=
  match l with
  | [] => 0%Q
  | x :: xs => foldl Qmax x xs
  end.

Definition group_of (k : Key) (obs : list Obs) : list Obs :=
  filter (fun o => obs_key o = k) obs.

(** [.agg({temp: ['mean','min','max'], 'date_month': 'first'})] on one group *)
Definition aggregate (k : Key) (grp : list Obs) : MonthlyAggregate :=
  let temps := obs_temp <$> grp in
  {| station_id := k.1.1;
     year := k.1.2;
     month := k.2;
     temperature_celsius_avg := mean temps;
     temperature_celsius_min := minimum temps;
     temperature_celsius_max := maximum temps;
     date_month := default "" (head (obs_label <$> grp)) |}.

(** [groupby(['station_id','year','month']).agg(...)] followed by
    [reset_index]: one record per distinct key, keys ascending. *)
Definition groupby_agg (obs : list Obs) : list MonthlyAggregate :=
  (fun k => aggregate k (group_of k obs))
    <$> merge_sort key_le (remove_dups (obs_key <$> obs)).

(** A cell of a numeric column: a null, a number, or a string on which
    the numeric reductions ([mean], [std]) raise. *)
Definition numeric (c : Cell) : Result (option Q) :=
  match c with
  | Null => Ok None
  | Num q => Ok (Some q)
  | Str _ => Raise (TypeError "could not convert string to float")
  end.

Section Transform.

(** [pd.to_datetime] on one string: [None] when it cannot be parsed. *)
Variable to_datetime : string -> option Timestamp.

(** [pd.to_datetime] on one cell of a series: a null stays a null (NaT),
    a string is parsed or the call raises; the feed's timestamp columns
    hold strings, a number is rejected here. *)
Definition to_datetime_cell (c : Cell) : Result (option Timestamp) :=
  match c with
  | Null => Ok None
  | Str s =>
      match to_datetime s with
      | Some ts => Ok (Some ts)
      | None => Raise (ParserError ("Unknown datetime string format, unable to parse: " +:+ s))
      end
  | Num _ => Raise (TypeError "timestamp column holds a number")
  end.

(** [pd.to_datetime(df[c])] paired with the rows it was read from. *)
Definition stamp_rows (c : string) (df : DataFrame)
  : Result (list (Row * option Timestamp)) :=
  mapR (fun r => let* ts := to_datetime_cell (cell r c) in Ok (r, ts)) (rows df).

(** The group key parts of a row: [groupby] leaves out a row whose key
    has a null part (a null station or a NaT timestamp); station
    identifiers are strings, as [load_weather_data] writes them. *)
Definition observe (temp_column : string) (rt : Row * option Timestamp)
  : Result (option Obs) :=
  let* t := numeric (cell rt.1 temp_column) in
  match t with
  | None => Ok None
  | Some q =>
      match cell rt.1 "station_id", rt.2 with
      | Str s, Some ts =>
          Ok (Some (mkObs s (ts_year ts) (ts_month ts) (strftime_Y_m ts) q))
      | Num _, _ => Raise (TypeError "station_id holds a number")
      | _, _ => Ok None
      end
  end.

Definition observations (temp_column : string)
  (stamped : list (Row * option Timestamp)) : Result (list Obs) :=
  let* l := mapR (observe temp_column) stamped in
  Ok (omap id l).

(** [transform_weather_data], with the two temperature labels it looks
    for as parameters: the two copies of the function differ in them. *)
Definition transform_weather_data_with (temp_first temp_second : string)
  (weather_df : DataFrame) : Result (list MonthlyAggregate) :=
  match resolve_column "Date/Time (LST)" "Date/Time" weather_df with
  | None => Raise (ValueError "Date/Time column not found in weather data")
  | Some datetime_column =>
      let* stamped := stamp_rows datetime_column weather_df in
      match resolve_column temp_first temp_second weather_df with
      | None => Raise (ValueError "Temperature column not found in weather data")
      | Some temp_column =>
          (* dropna(subset=[temp_column]) *)
          let kept := List.filter (fun rt => negb (is_null (cell rt.1 temp_column))) stamped in
          if has_column weather_df "station_id" then
            let* obs := observations temp_column kept in
            Ok (groupby_agg obs)
          else Raise (KeyError "station_id")
      end
  end.

End Transform.

(** ** Year-over-year delta: [calculate_yoy_delta] *)

Record YoyRecord := mkYoy {
  monthly : MonthlyAggregate;
  temperature_celsius_yoy_avg : option Q
}.

(** The key of a year-over-year series: [groupby(['station_id','month'])]. *)
Definition series_key (a : MonthlyAggregate) : string * Z := (station_id a, month a).

(** The order of [sort_values(['station_id','month','year'])]. *)
Definition yoy_le (a b : MonthlyAggregate) : Prop :=
  (station_id a ≠ station_id b ∧ String.le (station_id a) (station_id b)) ∨
  (station_id a = station_id b ∧
     ((month a < month b)%Z ∨ (month a = month b ∧ (year a ≤ year b)%Z))).

#[global] Instance yoy_le_dec : RelDecision yoy_le.
Proof. intros a b. unfold yoy_le. apply _. Defined.

(** The row before [a] in its group: [seen] holds the rows already
    visited, the latest first. *)
Definition previous_in_group (a : MonthlyAggregate) (seen : list MonthlyAggregate)
  : option MonthlyAggregate :=
  List.find (fun p => bool_decide (series_key p = series_key a)) seen.

(** [groupby(['station_id','month'])['temperature_celsius_avg'].diff()]:
    going down the frame, every row gets its value minus the value of the
    previous row of its group, and no value when it is the first. *)
Fixpoint group_diff (seen frame : list MonthlyAggregate) : list YoyRecord :=
  match frame with
  | [] => []
  | a :: rest =>
      mkYoy a ((fun p => temperature_celsius_avg a - temperature_celsius_avg p)%Q
                 <$> previous_in_group a seen)
      :: group_diff (a :: seen) rest
  end.

Definition calculate_yoy_delta (df : list MonthlyAggregate) : list YoyRecord :=
  let result_df := merge_sort yoy_le df in
  group_diff [] result_df.

(** ** Quality audit: [check_data_quality] *)

(** [df.isnull().sum()] for one column *)
Definition null_count (df : DataFrame) (c : string) : nat :=
  length (List.filter (fun r => is_null (cell r c)) (rows df)).

(** [null_counts[null_counts > 0].to_dict()] *)
Definition null_counts_of (df : DataFrame) : gmap string nat :=
  list_to_map
    (omap (fun c => let n := null_count df c in
                    if (0 <? n)%nat then Some (c, n) else None)
          (columns df)).

(** [pd.date_range(start, end)]: every day from [start] to [end_]. *)
Definition date_range (start end_ : Z) : list Z :=
  seqZ start (end_ - start + 1).

(** The missing days of a [Date] series (a date is its day number, NaT is
    [None]); [min] and [max] skip the nulls, and [pd.date_range] raises
    when they are NaT, that is when no date is left. The source turns the
    resulting set into a list in the set's own order. *)
Definition missing_dates_of (dates : list (option Z)) : Result (gset Z) :=
  match omap id dates with
  | [] => Raise (ValueError "Neither `start` nor `end` can be NaT")
  | d :: ds =>
      let start := foldl Z.min d ds in
      let end_ := foldl Z.max d ds in
      Ok (list_to_set (date_range start end_) ∖ list_to_set (d :: ds))
  end.

Definition Qltb (a b : Q) : bool := negb (Qle_bool b a).

Definition Qsq (a : Q) : Q := (a * a)%Q.

(** pandas' [var] (ddof=1) of a series without nulls; it is NaN, here
    [None], below two values. [std] is its square root. *)
Definition sample_variance (l : list Q) : option Q :=
  if (length l <? 2)%nat then None
  else
    let m := mean l in
    Some (Qsum ((fun x => Qsq (x - m)) <$> l)
          / inject_Z (Z.of_nat (length l - 1)))%Q.

(** [x < mean - 3 * std] and [x > mean + 3 * std] for the non-negative
    root [std] of [var], written without the root: the distance to the
    mean is on the right side and its square exceeds [9 * var]. *)
Definition below_band (m var x : Q) : bool :=
  Qltb x m && Qltb (9 * var) (Qsq (m - x)).

Definition above_band (m var x : Q) : bool :=
  Qltb m x && Qltb (9 * var) (Qsq (x - m)).

(** The number of readings outside [mean ± 3 std]. With a NaN bound
    (no reading, or one reading, whose [std] is NaN) every comparison is
    false; a null reading compares false as well, so only the readings
    that are present are counted. *)
Definition outliers_3sigma (temp_data : list Q) : nat :=
  match sample_variance temp_data with
  | None => 0
  | Some var =>
      let temp_mean := mean temp_data in
      length (List.filter (fun x => below_band temp_mean var x || above_band temp_mean var x)
                          temp_data)
  end.

Definition is_none {A} (o : option A) : bool :=
  match o with None => true | Some _ => false end.

Section Audit.

Variable to_datetime : string -> option Timestamp.

(** [pd.to_datetime(df[c]).dt.date] *)
Definition date_series (c : string) (df : DataFrame) : Result (list (option Z)) :=
  let* stamped := stamp_rows to_datetime c df in
  Ok ((fun rt : Row * option Timestamp => date_of <$> rt.2) <$> stamped).

(** [df[c]] read as a numeric series *)
Definition numeric_series (c : string) (df : DataFrame) : Result (list (option Q)) :=
  mapR numeric ((fun r => cell r c) <$> rows df).

End Audit.

(** [dags/weather_utils.py] *)
Module WeatherUtils.

Definition transform_weather_data to_datetime :=
  transform_weather_data_with to_datetime "Temp (°C)" "Mean Temp (°C)".

Record QualityReport := mkReport {
  report_station_id : Z;
  report_year : Z;
  record_count : nat;
  null_counts : gmap string nat;
  missing_dates : gset Z;
  temperature_outliers : nat
}.

(** The [Date] helper column that the source leaves on [df] is not
    tracked: nothing below reads it. *)
Definition check_data_quality (to_datetime : string -> option Timestamp)
  (df : DataFrame) (station_id year : Z) : Result QualityReport :=
  let null_counts := null_counts_of df in
  let* missing :=
    match resolve_column "Date/Time (LST)" "Date/Time" df with
    | Some datetime_column =>
        let* dates := date_series to_datetime datetime_column df in
        missing_dates_of dates
    | None => Ok ∅
    end in
  let* outliers :=
    match resolve_column "Temp (°C)" "Mean Temp (°C)" df with
    | Some temp_column =>
        let* temps := numeric_series temp_column df in
        if negb (forallb is_none temps) then
          let temp_data := omap id temps in
          if (0 <? length temp_data)%nat then Ok (outliers_3sigma temp_data)
          else Ok 0%nat
        else Ok 0%nat
    | None => Ok 0%nat
    end in
  Ok {| report_station_id := station_id;
        report_year := year;
        record_count := length (rows df);
        null_counts := null_counts;
        missing_dates := missing;
        temperature_outliers := outliers |}.

End WeatherUtils.

(** [data_transformation.py]: the temperature labels are spelled with
    U+C9F8 where the other copy has the degree sign. *)
Module DataTransformation.

Definition transform_weather_data to_datetime :=
  transform_weather_data_with to_datetime "Temp (째C)" "Mean Temp (째C)".

End DataTransformation.

(** [data_extraction.py] *)
Module DataExtraction.

(** The result dictionary: the last two keys are only set when the
    column they are computed from exists. *)
Record QualityResults := mkResults {
  null_counts : gmap string nat;
  missing_dates : option (gset Z);
  temperature_outliers : option nat
}.

Definition check_data_quality (to_datetime : string -> option Timestamp)
  (df : DataFrame) : Result QualityResults :=
  let null_counts := null_counts_of df in
  let* missing :=
    if has_column df "Date/Time" then
      let* dates := date_series to_datetime "Date/Time" df in
      let* m := missing_dates_of dates in
      Ok (Some m)
    else Ok None in
  let* outliers :=
    if has_column df "Temp (°C)" then
      let* temps := numeric_series "Temp (°C)" df in
      (* [mean] and [std] skip the nulls *)
      Ok (Some (outliers_3sigma (omap id temps)))
    else Ok None in
  Ok {| null_counts := null_counts;
        missing_dates := missing;
        temperature_outliers := outliers |}.

End DataExtraction.

(** ** Loading the raw batches: [load_weather_data] *)

(** [s.split(sep)] for a one-character separator *)
Fixpoint split_go (sep : ascii) (cur : string) (s : string) : list string :=
  match s with
  | EmptyString => [String.rev cur]
  | String a s' =>
      if Ascii.eqb a sep then String.rev cur :: split_go sep "" s'
      else split_go sep (String a cur) s'
  end.

Definition split (sep : ascii) (s : string) : list string := split_go sep "" s.

(** [s.replace(old, "")] for a non-empty [old]: every occurrence, left to
    right, without overlap; [skip] counts the characters of a match that
    are still to be dropped. *)
Fixpoint remove_go (old : string) (skip : nat) (s : string) : string :=
  match s with
  | EmptyString => EmptyString
  | String a s' =>
      match skip with
      | S k => remove_go old k s'
      | O =>
          if String.prefix old s then remove_go old (String.length old - 1) s'
          else String a (remove_go old 0 s')
      end
  end.

Definition remove_all (old s : string) : string := remove_go old 0 s.

(** [os.path.basename] *)
Definition basename (p : string) : string :=
  default "" (last (split "/" p)).

(** [l[i]] *)
Definition index {A} (l : list A) (i : nat) : Result A :=
  match l !! i with
  | Some x => Ok x
  | None => Raise (IndexError "list index out of range")
  end.

(** A file matched by [glob(raw_data_dir/station_*.csv)]: its path and
    what [pd.read_csv] makes of its content. *)
Record RawFile := mkFile {
  file_path : string;
  read_csv : Result DataFrame
}.

(** The body of the [try] block for one file *)
Definition process_file (file : RawFile) : Result DataFrame :=
  let filename := basename (file_path file) in
  let parts := split "_" (remove_all ".csv" filename) in
  let* station_id := index parts 1 in
  let* year := index parts 2 in
  let* df := read_csv file in
  let df := set_scalar df "station_id" (Str station_id) in
  let df := set_scalar df "data_year" (Str year) in
  Ok df.

(** [pd.concat(frames, ignore_index=True)]: the rows of all frames in
    order, under the union of the columns in order of first appearance. *)
Definition union_columns (acc cols : list string) : list string :=
  foldl (fun (acc : list string) c => if bool_decide (c ∈ acc) then acc else acc ++ [c]) acc cols.

Definition concat (frames : list DataFrame) : DataFrame :=
  {| columns := foldl union_columns [] (columns <$> frames);
     rows := mjoin (rows <$> frames) |}.

(** The record of [logger.error] in the [except] clause *)
Definition processing_error (file : RawFile) (e : Exception) : string :=
  "Error processing file " +:+ file_path file +:+ ": " +:+ exc_str e.

(** The [for file in csv_files] loop: the frames collected so far and the
    error records written so far. *)
Fixpoint load_loop (csv_files : list RawFile) (all_data : list DataFrame)
  (log : list string) : list DataFrame * list string :=
  match csv_files with
  | [] => (all_data, log)
  | file :: rest =>
      match process_file file with
      | Ok df => load_loop rest (all_data ++ [df]) log
      | Raise e =>
          load_loop rest all_data
            (log ++ [processing_error file e])
      end
  end.

(** [load_weather_data]: the records sent to [logger.error] and the
    outcome. [csv_files] is the result of the [glob]. *)
Definition load_weather_data (raw_data_dir : string) (csv_files : list RawFile)
  : list string * Result DataFrame :=
  match csv_files with
  | [] =>
      (["No raw data files found in " +:+ raw_data_dir],
       Raise (FileNotFoundError ("No raw data files found in " +:+ raw_data_dir)))
  | _ =>
      let '(all_data, log) := load_loop csv_files [] [] in
      match all_data with
      | [] => (log ++ ["No valid data files were processed"],
               Raise (ValueError "No valid data files were processed"))
      | _ => (log, Ok (concat all_data))
      end
  end.

(** ** The dimension join: [join_weather_and_geonames] *)

(** The frame that [calculate_yoy_delta] hands to the join. *)
Definition opt_num (o : option Q) : Cell :=
  match o with Some q => Num q | None => Null end.

Definition yoy_columns : list string :=
  ["station_id"; "year"; "month"; "temperature_celsius_avg";
   "temperature_celsius_min"; "temperature_celsius_max"; "date_month";
   "temperature_celsius_yoy_avg"].

Definition yoy_row (r : YoyRecord) : Row :=
  let a := monthly r in
  list_to_map
    [("station_id", Str (station_id a));
     ("year", Num (inject_Z (year a)));
     ("month", Num (inject_Z (month a)));
     ("temperature_celsius_avg", Num (temperature_celsius_avg a));
     ("temperature_celsius_min", Num (temperature_celsius_min a));
     ("temperature_celsius_max", Num (temperature_celsius_max a));
     ("date_month", Str (date_month a));
     ("temperature_celsius_yoy_avg", opt_num (temperature_celsius_yoy_avg r))].

Definition yoy_frame (l : list YoyRecord) : DataFrame :=
  {| columns := yoy_columns; rows := yoy_row <$> l |}.

(** Two join keys match when they are the same value. *)
Definition key_match (a b : Cell) : bool :=
  match a, b with
  | Null, Null => true
  | Num x, Num y => Qeq_bool x y
  | Str x, Str y => String.eqb x y
  | _, _ => false
  end.

(** [pd.merge(left, right, on=key)]: the inner join. A label other than
    the key that both frames have gets the suffix [_x] on the left and
    [_y] on the right; the rows follow the left frame, and for one left
    row the right frame. *)
Definition overlaps (key : string) (left right : DataFrame) (c : string) : bool :=
  negb (String.eqb c key) && has_column left c && has_column right c.

Definition left_label (key : string) (left right : DataFrame) (c : string) : string :=
  if overlaps key left right c then c +:+ "_x" else c.

Definition right_label (key : string) (left right : DataFrame) (c : string) : string :=
  if overlaps key left right c then c +:+ "_y" else c.

Definition right_columns (key : string) (right : DataFrame) : list string :=
  List.filter (fun c => negb (String.eqb c key)) (columns right).

Definition merged_row (key : string) (left right : DataFrame) (l r : Row) : Row :=
  list_to_map
    (((fun c => (left_label key left right c, cell l c)) <$> columns left) ++
     ((fun c => (right_label key left right c, cell r c)) <$> right_columns key right)).

Definition merge_on (key : string) (left right : DataFrame) : Result DataFrame :=
  if has_column left key && has_column right key then
    Ok {| columns := (left_label key left right <$> columns left) ++
                     (right_label key left right <$> right_columns key right);
          rows := l ← rows left;
                  r ← List.filter (fun r => key_match (cell l key) (cell r key)) (rows right);
                  [merged_row key left right l r] |}
  else Raise (KeyError key).

Definition final_columns : list string :=
  ["station_name"; "climate_id"; "latitude"; "longitude"; "date_month";
   "feature_id"; "map"; "temperature_celsius_avg"; "temperature_celsius_min";
   "temperature_celsius_max"; "temperature_celsius_yoy_avg"].

(** What a call leaves behind: the two frames of the caller, which the
    function writes to, and the value it returns or the exception it
    raises. The two arguments are distinct objects in both callers. *)
Record JoinOutcome := mkOutcome {
  weather_after : DataFrame;
  geonames_after : DataFrame;
  returned : Result DataFrame
}.

Definition join_weather_and_geonames (weather_df geonames_df : DataFrame) : JoinOutcome :=
  (* weather_df['join_key'] = 1; geonames_df['join_key'] = 1 *)
  let weather_df := set_scalar weather_df "join_key" (Num 1) in
  let geonames_df := set_scalar geonames_df "join_key" (Num 1) in
  {| weather_after := weather_df;
     geonames_after := geonames_df;
     returned :=
       let* combined_df := merge_on "join_key" weather_df geonames_df in
       let* combined_df := drop_column combined_df "join_key" in
       match List.find (fun col => negb (has_column combined_df col)) final_columns with
       | Some col =>
           Raise (ValueError ("Required column '" +:+ col +:+ "' not found in combined data"))
       | None => Ok (select_columns combined_df final_columns)
       end |}.

(** ** The analytical queries: [run_sql_queries] *)

(** SQLite's order across storage classes: NULL, then the numbers, then
    the texts (compared byte by byte). *)
Definition sqlite_le (a b : Cell) : Prop :=
  match a, b with
  | Null, _ => True
  | Num _, Null => False
  | Num x, Num y => (x <= y)%Q
  | Num _, Str _ => True
  | Str x, Str y => String.le x y
  | Str _, _ => False
  end.

#[global] Instance sqlite_le_dec : RelDecision sqlite_le.
Proof.
  intros [|x|x] [|y|y]; simpl; try apply _.
  destruct (Qlt_le_dec y x) as [H|H]; [right | left; exact H].
  intros H'. exact (Qlt_not_le _ _ H H').
Defined.

(** [ORDER BY col DESC] and [ORDER BY col ASC] as row orders *)
Definition order_desc (col : string) (r1 r2 : Row) : Prop :=
  sqlite_le (cell r2 col) (cell r1 col).

Definition order_asc (col : string) (r1 r2 : Row) : Prop :=
  sqlite_le (cell r1 col) (cell r2 col).

#[global] Instance order_desc_dec col : RelDecision (order_desc col).
Proof. intros a b. unfold order_desc. apply _. Defined.

#[global] Instance order_asc_dec col : RelDecision (order_asc col).
Proof. intros a b. unfold order_asc. apply _. Defined.

(** [SELECT src AS alias, ...] on one row *)
Definition select_as (sel : list (string * string)) (r : Row) : Row :=
  list_to_map ((fun sa : string * string => (sa.2, cell r sa.1)) <$> sel).

(** A statement that names a column the table does not have fails. *)
Definition sql_columns (weather_data : DataFrame) (cols : list string) : Result unit :=
  match List.find (fun c => negb (has_column weather_data c)) cols with
  | Some c => Raise (DatabaseError ("no such column: " +:+ c))
  | None => Ok tt
  end.

(** query4: [ORDER BY temperature_celsius_max DESC LIMIT 10] *)
Definition query4 (weather_data : DataFrame) : Result DataFrame :=
  let* _ := sql_columns weather_data
              ["station_name"; "date_month"; "temperature_celsius_max"] in
  Ok {| columns := ["station_name"; "date_month"; "max_temperature"];
        rows := select_as [("station_name", "station_name");
                           ("date_month", "date_month");
                           ("temperature_celsius_max", "max_temperature")]
                  <$> take 10 (merge_sort (order_desc "temperature_celsius_max")
                                          (rows weather_data)) |}.

(** query5: [ORDER BY temperature_celsius_min ASC LIMIT 10] *)
Definition query5 (weather_data : DataFrame) : Result DataFrame :=
  let* _ := sql_columns weather_data
              ["station_name"; "date_month"; "temperature_celsius_min"] in
  Ok {| columns := ["station_name"; "date_month"; "min_temperature"];
        rows := select_as [("station_name", "station_name");
                           ("date_month", "date_month");
                           ("temperature_celsius_min", "min_temperature")]
                  <$> take 10 (merge_sort (order_asc "temperature_celsius_min")
                                          (rows weather_data)) |}.

(** The last two entries of the result dictionary. The first three
    statements run before them: they are kept as the columns they need,
    their result tables are left out. *)
Record QueryResults := mkQueries {
  extreme_high_temps : DataFrame;
  extreme_low_temps : DataFrame
}.

Definition run_sql_queries (weather_data : DataFrame) : Result QueryResults :=
  let* _ := sql_columns weather_data
              ["station_name"; "date_month"; "temperature_celsius_avg"] in
  let* _ := sql_columns weather_data
              ["station_name"; "date_month"; "temperature_celsius_max";
               "temperature_celsius_min"] in
  let* _ := sql_columns weather_data
              ["station_name"; "date_month"; "temperature_celsius_yoy_avg"] in
  let* high := query4 weather_data in
  let* low := query5 weather_data in
  Ok {| extreme_high_temps := high; extreme_low_temps := low |}.

(** ** Saving the analysis results: [save_analysis_results] *)

(** The Python values that can reach the save step. *)
Inductive PyVal :=
| PNone
| PBool (b : bool)
| PNum (q : Q)
| PNaN
| PStr (s : string)
| PList (l : list PyVal)
| PDict (items : list (PyVal * PyVal))
| PFrame (df : DataFrame)       (* has [to_dict] *)
| PObject (repr : string).      (* any other object *)

(** The text of a JSON file, as its syntax tree. *)
Inductive Json :=
| JNull
| JBool (b : bool)
| JNum (q : Q)
| JNaN
| JStr (s : string)
| JArr (l : list Json)
| JObj (members : list (string * Json)).

(** What a file holds: a complete JSON text, or the beginning of one
    when [json.dump] raised while writing. *)
Inductive FileContent :=
| JsonText (j : Json)
| Truncated.

Record FileSystem := mkFS {
  dirs : gset string;
  files : gmap string FileContent
}.

(** [ensure_dir] *)
Definition ensure_dir (directory : string) (fs : FileSystem) : FileSystem :=
  if bool_decide (directory ∈ dirs fs) then fs
  else {| dirs := {[directory]} ∪ dirs fs; files := files fs |}.

(** [os.path.join] of a directory and a file name *)
Definition path_join (dir file : string) : string := dir +:+ "/" +:+ file.

Definition py_cell (c : Cell) : PyVal :=
  match c with
  | Null => PNaN
  | Num q => PNum q
  | Str s => PStr s
  end.

(** [df.to_dict(orient='records')] *)
Definition to_dict_records (df : DataFrame) : PyVal :=
  PList ((fun r => PDict ((fun c => (PStr c, py_cell (cell r c))) <$> columns df))
           <$> rows df).

Section Save.

(** Python's [str] on the values that are not strings *)
Variable py_str : PyVal -> string.

(** The JSON encoder: the key of an object member *)
Definition json_key (k : PyVal) : Result string :=
  match k with
  | PStr s => Ok s
  | PNone => Ok "null"
  | PBool true => Ok "true"
  | PBool false => Ok "false"
  | PNum q => Ok (py_str k)
  | PNaN => Ok "NaN"
  | _ => Raise (TypeError "keys must be str, int, float, bool or None")
  end.

(** The JSON encoder: a value, or [TypeError] on the first object it
    cannot serialise. *)
Fixpoint to_json (v : PyVal) : Result Json :=
  match v with
  | PNone => Ok JNull
  | PBool b => Ok (JBool b)
  | PNum q => Ok (JNum q)
  | PNaN => Ok JNaN
  | PStr s => Ok (JStr s)
  | PList l =>
      let* js := (fix go (l : list PyVal) : Result (list Json) :=
                    match l with
                    | [] => Ok []
                    | x :: xs =>
                        let* j := to_json x in
                        let* js := go xs in
                        Ok (j :: js)
                    end) l in
      Ok (JArr js)
  | PDict items =>
      let* ms := (fix go (l : list (PyVal * PyVal)) : Result (list (string * Json)) :=
                    match l with
                    | [] => Ok []
                    | (k, x) :: xs =>
                        let* s := json_key k in
                        let* j := to_json x in
                        let* ms := go xs in
                        Ok ((s, j) :: ms)
                    end) items in
      Ok (JObj ms)
  | PFrame _ => Raise (TypeError "Object of type DataFrame is not JSON serializable")
  | PObject _ => Raise (TypeError "Object is not JSON serializable")
  end.

(** [with open(path, 'w') as f: json.dump(obj, f, indent=2)]: the
    directory has to exist; when the encoder raises, the file is left
    with the text written so far. *)
Definition dump_to (dir path : string) (obj : PyVal) (fs : FileSystem)
  : FileSystem * Result unit :=
  if bool_decide (dir ∈ dirs fs) then
    match to_json obj with
    | Ok j => ({| dirs := dirs fs; files := <[path := JsonText j]> (files fs) |}, Ok tt)
    | Raise e => ({| dirs := dirs fs; files := <[path := Truncated]> (files fs) |}, Raise e)
    end
  else (fs, Raise (FileNotFoundError ("No such file or directory: '" +:+ path +:+ "'"))).

(** The dictionary comprehension over [results.items()] *)
Definition convert_items (items : list (PyVal * PyVal)) : list (PyVal * PyVal) :=
  (fun kv : PyVal * PyVal =>
     (kv.1, match kv.2 with
            | PFrame df => to_dict_records df
            | other => other
            end)) <$> items.

(** [save_analysis_results]: the file system after the call and the
    path it returns. The second test for a string is never reached,
    the first branch has returned by then; the conversions of the
    first [try] block do not raise on the values above, so its
    [except] clause is not entered. The [except] clause of the second
    one logs and raises again. *)
Definition save_analysis_results (results : PyVal) (output_dir output_file : string)
  (fs : FileSystem) : FileSystem * Result string :=
  let output_path := path_join output_dir output_file in
  match results with
  | PStr _ =>
      (* the fail-safe branch: no [ensure_dir] *)
      let '(fs, r) := dump_to output_dir output_path
                        (PDict [(PStr "raw_data", results)]) fs in
      (fs, let* _ := r in Ok output_path)
  | _ =>
      let fs := ensure_dir output_dir fs in
      let results_dict :=
        match results with
        | PDict items => PDict (convert_items items)
        | PNone => PDict [(PStr "error", PStr "No results data available")]
        | _ => PDict [(PStr "raw_data", PStr (py_str results))]
        end in
      let '(fs, r) := dump_to output_dir output_path results_dict fs in
      (* except Exception: logger.error(...); raise *)
      (fs, let* _ := r in Ok output_path)
  end.

End Save.

(** ** The dimension table: [load_geonames_data] *)

(** [col.strip()], on the ASCII white space. *)
Fixpoint lstrip (s : string) : string :=
  match s with
  | EmptyString => EmptyString
  | String a s' => if Ascii.is_space a then lstrip s' else s
  end.

Definition strip (s : string) : string :=
  String.rev (lstrip (String.rev (lstrip s))).

Definition relevant_columns : list string :=
  ["id"; "name"; "feature.id"; "latitude"; "longitude"; "map"].

(** The mapping of [rename(columns={...})] *)
Definition renamed (c : string) : string :=
  if String.eqb c "id" then "climate_id"
  else if String.eqb c "name" then "station_name"
  else if String.eqb c "feature.id" then "feature_id"
  else c.

(** [df.columns = [f(c) for c in df.columns]] and [df.rename(columns=f)]:
    every column gets the label [f] gives it. *)
Definition relabel (f : string -> string) (df : DataFrame) : DataFrame :=
  {| columns := f <$> columns df;
     rows := (fun r : Row => list_to_map ((fun c => (f c, cell r c)) <$> columns df))
               <$> rows df |}.

(** [load_geonames_data]; [geonames_csv] is what [pd.read_csv] makes of
    the file. *)
Definition load_geonames_data (geonames_csv : Result DataFrame) : Result DataFrame :=
  let* geonames_df := geonames_csv in
  let geonames_df := relabel strip geonames_df in
  match List.find (fun col => negb (has_column geonames_df col)) relevant_columns with
  | Some col =>
      Raise (ValueError ("Required column '" +:+ col +:+ "' not found in geonames data"))
  | None =>
      let cleaned_df := select_columns geonames_df relevant_columns in
      Ok (relabel renamed cleaned_df)
  end.

(** ** The transformation entry point: [run_transformation_pipeline] *)


(** ** The retry loop of [fetch_weather_data] *)

(** What one pass through the [try] block does: it returns a value, it
    raises a [requests] exception, or it raises another exception. *)
Inductive Attempt (A : Type) :=
| Fetched (a : A)
| RequestException (msg : string)
| OtherException (e : Exception).
Arguments Fetched {A} a.
Arguments RequestException {A} msg.
Arguments OtherException {A} e.

(** How the call ends. *)
Inductive FetchEnd (A : Type) :=
| Returned (a : A)
| ReturnedNone
| RaisedRequest (msg : string)
| RaisedOther (e : Exception).
Arguments Returned {A} a.
Arguments ReturnedNone {A}.
Arguments RaisedRequest {A} msg.
Arguments RaisedOther {A} e.

(** The requests made, the seconds slept between them, and the end. *)
Record FetchRun (A : Type) := mkRun {
  requests_made : nat;
  slept : list Z;
  fetch_end : FetchEnd A
}.
Arguments mkRun {A} _ _ _.
Arguments requests_made {A} _.
Arguments slept {A} _.
Arguments fetch_end {A} _.

Definition max_retries : nat := 3.

(** The file that a successful pass writes:
    [f"{output_dir}/station_{station_id}_{year}.csv"] *)
Definition station_file (output_dir : string) (station_id year : Z) : string :=
  output_dir +:+ "/station_" +:+ pretty station_id +:+ "_" +:+ pretty year +:+ ".csv".

(** [for attempt in range(max_retries)], from [attempt] on; [body n] is
    the outcome of the [n]-th pass. *)
Fixpoint fetch_loop {A} (body : nat -> Attempt A) (remaining attempt : nat)
  (retry_delay : Z) (slept : list Z) : FetchRun A :=
  match remaining with
  | O => mkRun attempt slept ReturnedNone
  | S remaining' =>
      match body attempt with
      | Fetched a => mkRun (S attempt) slept (Returned a)
      | OtherException e => mkRun (S attempt) slept (RaisedOther e)
      | RequestException msg =>
          if (attempt <? max_retries - 1)%nat then
            fetch_loop body remaining' (S attempt) (retry_delay * 2) (slept ++ [retry_delay])
          else mkRun (S attempt) slept (RaisedRequest msg)
      end
  end.

Definition fetch_weather_data {A} (body : nat -> Attempt A) : FetchRun A :=
  fetch_loop body max_retries 0 2 [].

(** ** The orchestration callbacks of [weather_etl_dag.py] *)

Definition DEFAULT_STATIONS : list Z := [26953; 31688]%Z.
Definition DEFAULT_YEARS : list Z := [2023; 2024]%Z.

(** The keys [f'quality_results_{station_id}_{year}'] and
    [f'station_{station_id}_{year}'] *)
Definition quality_key (station_id year : Z) : string :=
  "quality_results_" +:+ pretty station_id +:+ "_" +:+ pretty year.

Definition report_key (station_id year : Z) : string :=
  "station_" +:+ pretty station_id +:+ "_" +:+ pretty year.

(** The two nested loops over the default stations and years: the
    reports found in XCom, under their report keys. A report is a
    non-empty dictionary, so a key that is present passes the test
    [if quality_result]. *)
Definition collect_quality_results (xcom : gmap string WeatherUtils.QualityReport)
  : list (string * WeatherUtils.QualityReport) :=
  station_id ← DEFAULT_STATIONS;
  year ← DEFAULT_YEARS;
  match xcom !! quality_key station_id year with
  | Some quality_result => [(report_key station_id year, quality_result)]
  | None => []
  end.

(** [check_data_quality] of the DAG: the task to follow. *)
Definition branch_on_quality (xcom : gmap string WeatherUtils.QualityReport) : string :=
  match collect_quality_results xcom with
  | [] => "skip_transformation"
  | _ => "run_transformation"
  end.

(** [check_extractions]: the value the sensor pokes for, and the report
    it saves when there is one. *)
Definition check_extractions (xcom : gmap string WeatherUtils.QualityReport)
  : bool * option (list (string * WeatherUtils.QualityReport)) :=
  match collect_quality_results xcom with
  | [] => (false, None)
  | all_quality_results => (true, Some all_quality_results)
  end.


Section SaveCallback.

Variable py_str : PyVal -> string.

(** [get_analysis_results_and_save]; [pulled] is what [ti.xcom_pull]
    returns or raises. *)
Definition get_analysis_results_and_save (pulled : Result PyVal) (fs : FileSystem)
  : FileSystem * Result string :=
  let attempt :=
    match pulled with
    | Raise e => (fs, Raise e)
    | Ok results =>
        let results :=
          match results with
          | PNone => PDict [(PStr "error", PStr "No results found in XCom")]
          | _ => results
          end in
        save_analysis_results py_str results "output" "analysis_results.json" fs
    end in
  match attempt.2 with
  | Ok path => attempt
  | Raise e =>
      (* except Exception as e: the fallback output *)
      let fs := ensure_dir "output" attempt.1 in
      let output_path := path_join "output" "analysis_results_fallback.json" in
      let '(fs, r) := dump_to py_str "output" output_path
                        (PDict [(PStr "error", PStr (exc_str e))]) fs in
      (fs, let* _ := r in Ok output_path)
  end.

End SaveCallback.

(** * Specification-side definitions and sample data

    The notions that the statements below use on top of the embedding,
    and the concrete batches on which the embedding is run. *)

(** The key of a monthly aggregate. *)
Definition key3 (a : MonthlyAggregate) : Key := (station_id a, year a, month a).

(** The calculator as the specification words it: the partition of a
    (station, month) pair ordered by year, and the delta of its [i]-th
    row. *)
Definition year_le (a b : MonthlyAggregate) : Prop := (year a ≤ year b)%Z.

#[global] Instance year_le_dec : RelDecision year_le.
Proof. intros a b. unfold year_le. apply _. Defined.

Definition partition_of (g : string * Z) (l : list MonthlyAggregate)
  : list MonthlyAggregate :=
  merge_sort year_le (filter (fun a => series_key a = g) l).

Definition delta_at (P : list MonthlyAggregate) (i : nat) : option Q :=
  match i with
  | O => None
  | S j =>
      match P !! i, P !! j with
      | Some cur, Some prev =>
          Some (temperature_celsius_avg cur - temperature_celsius_avg prev)%Q
      | _, _ => None
      end
  end.

Definition yoy_sample : list MonthlyAggregate :=
  [mkAggregate "12345" 2022 1 4 4 4 "2022-01";
   mkAggregate "12345" 2023 1 5 5 5 "2023-01";
   mkAggregate "12345" 2022 2 5 5 5 "2022-02";
   mkAggregate "12345" 2023 2 6 6 6 "2023-02"].

(** The observation that the aggregation reads from one row of the raw
    frame: the row has a temperature, a station and a timestamp. *)
Definition row_observation (to_datetime : string → option Timestamp)
  (datetime_column temp_column : string) (r : Row) : option Obs :=
  match cell r temp_column, cell r "station_id", cell r datetime_column with
  | Num q, Str s, Str d =>
      match to_datetime d with
      | Some ts => Some (mkObs s (ts_year ts) (ts_month ts) (strftime_Y_m ts) q)
      | None => None
      end
  | _, _, _ => None
  end.


(** A row that the aggregation can read: its timestamp is null or can be
    parsed, its temperature is null or a number, its station is null or
    a string. *)
Definition readable_row (to_datetime : string → option Timestamp)
  (datetime_column temp_column : string) (r : Row) : Prop :=
  (match cell r datetime_column with
   | Null => True
   | Str d => is_Some (to_datetime d)
   | Num _ => False
   end) ∧
  (match cell r temp_column with Str _ => False | _ => True end) ∧
  (match cell r "station_id" with Num _ => False | _ => True end).

Definition transform_sample : DataFrame :=
  mkFrame ["Date/Time"; "Temp (°C)"; "station_id"]
    [ list_to_map [("Date/Time", Str "2023-01-01"); ("Temp (°C)", Num 5.2);
                   ("station_id", Str "12345")];
      list_to_map [("Date/Time", Str "2023-01-02"); ("Temp (°C)", Num 4.8);
                   ("station_id", Str "12345")];
      list_to_map [("Date/Time", Str "2023-02-01"); ("Temp (°C)", Num 6.1);
                   ("station_id", Str "12345")];
      list_to_map [("Date/Time", Str "2023-02-02"); ("Temp (°C)", Num 5.9);
                   ("station_id", Str "12345")] ].

Definition transform_sample_aggregates : list MonthlyAggregate :=
  [ mkAggregate "12345" 2023 1 (1000 # 200) 4.8 5.2 "2023-01";
    mkAggregate "12345" 2023 2 (1200 # 200) 5.9 6.1 "2023-02" ].

Definition quality_sample : DataFrame :=
  mkFrame ["Date/Time"; "Temp (°C)"]
    [ list_to_map [("Date/Time", Str "2023-01-01"); ("Temp (°C)", Num 5.2)];
      list_to_map [("Date/Time", Str "2023-01-02"); ("Temp (°C)", Num 4.8)];
      list_to_map [("Date/Time", Str "2023-01-03"); ("Temp (°C)", Null)];
      list_to_map [("Date/Time", Str "2023-01-05"); ("Temp (°C)", Num 100)] ].


(** The frames of the files that could be processed, and the error
    records of the files that could not, both in the order of the
    files. *)
Definition usable (csv_files : list RawFile) : list DataFrame :=
  omap (fun f => match process_file f with Ok df => Some df | Raise _ => None end)
       csv_files.

Definition failure_records (csv_files : list RawFile) : list string :=
  omap (fun f => match process_file f with
                 | Raise e => Some (processing_error f e)
                 | Ok _ => None
                 end)
       csv_files.

Definition load_sample : list RawFile :=
  [ mkFile "raw_data/station_26953_2023.csv" (Ok quality_sample);
    mkFile "raw_data/station_26953.csv" (Ok quality_sample);
    mkFile "raw_data/station_31688_2023.csv" (Raise (ParserError "No columns to parse from file")) ].

(** The frame that reaches the check of the output columns: the cross
    product of the two frames, less the key column. *)
Definition crossed (w g : DataFrame) : DataFrame :=
  {| columns := List.filter (fun x => negb (String.eqb x "join_key"))
                  ((left_label "join_key" w g <$> columns w) ++
                   (right_label "join_key" w g <$> right_columns "join_key" g));
     rows := (fun r : Row => delete "join_key" r)
               <$> (l ← rows w; r ← rows g; [merged_row "join_key" w g l r]) |}.

(** The final row made of one monthly record and one dimension row. *)
Definition final_row (w g : DataFrame) (l r : Row) : Row :=
  select_row final_columns (delete "join_key" (merged_row "join_key" w g l r)).


(** The cells of one column, row by row. *)
Definition column_values (c : string) (rs : list Row) : list Cell :=
  (fun r : Row => cell r c) <$> rs.

(** The two frames that reach the join in the pipeline. *)
Definition geonames_columns : list string :=
  ["climate_id"; "station_name"; "feature_id"; "latitude"; "longitude"; "map"].

Definition join_sample_weather : DataFrame :=
  yoy_frame (calculate_yoy_delta yoy_sample).

Definition join_sample_geonames : DataFrame :=
  mkFrame geonames_columns
    [ list_to_map [("climate_id", Str "1108447"); ("station_name", Str "Vancouver");
                   ("feature_id", Str "JBRIK"); ("latitude", Num 49.2);
                   ("longitude", Num (-123.1)); ("map", Str "092G03")];
      list_to_map [("climate_id", Str "6158355"); ("station_name", Str "Toronto");
                   ("feature_id", Str "FEUZB"); ("latitude", Num 43.7);
                   ("longitude", Num (-79.4)); ("map", Str "030M11")] ].



(** A final dataset of twelve rows: the sample records of two years
    under three dimension rows. *)
Definition sql_sample : DataFrame :=
  match returned (join_weather_and_geonames join_sample_weather
                    (mkFrame geonames_columns
                       (rows join_sample_geonames ++ take 1 (rows join_sample_geonames)))) with
  | Ok final => final
  | Raise _ => mkFrame [] []
  end.

(** The JSON text of a frame turned into records. *)
Definition json_cell (c : Cell) : Json :=
  match c with
  | Null => JNaN
  | Num q => JNum q
  | Str s => JStr s
  end.

Definition json_records (df : DataFrame) : Json :=
  JArr ((fun r : Row => JObj ((fun c => (c, json_cell (cell r c))) <$> columns df))
          <$> rows df).

Definition sample_str (v : PyVal) : string :=
  match v with
  | PStr s | PObject s => s
  | _ => "?"
  end.

Definition save_sample_fs : FileSystem := mkFS {[ "output" ]} ∅.


(** The rows a file contributes: those of its frame when it can be
    processed, none otherwise. *)
Definition rows_read (file : RawFile) : nat :=
  match process_file file, read_csv file with
  | Ok _, Ok raw => length (rows raw)
  | _, _ => 0%nat
  end.

(** The character [c] does not occur in [s]. *)
Fixpoint free (c : ascii) (s : string) : bool :=
  match s with
  | EmptyString => true
  | String a s' => negb (Ascii.eqb a c) && free c s'
  end.

(** The dimension table as the raw files have it: the labels carry
    white space. *)
Definition geonames_sample : Result DataFrame :=
  Ok (mkFrame [" id"; "name "; "feature.id"; "latitude"; "longitude"; "map"; "note"]
        [ list_to_map [(" id", Str "7025250"); ("name ", Str "MONTREAL");
                       ("feature.id", Str "f1"); ("latitude", Num 45.47);
                       ("longitude", Num (-73.74)); ("map", Str "m1");
                       ("note", Str "x")] ]).



(** [c] ends with [s]. *)
Fixpoint ends_with (s c : string) : bool :=
  String.eqb s c ||
  match c with
  | EmptyString => false
  | String _ c' => ends_with s c'
  end.

(** * Properties *)

(** ** Orders *)

#[global] Instance yoy_le_total : Total yoy_le.
Proof.
  intros a b. unfold yoy_le.
  destruct (decide (station_id a = station_id b)) as [E|N].
  - rewrite E. destruct (Z.lt_trichotomy (month a) (month b)) as [?|[?|?]];
      destruct (Z.le_ge_cases (year a) (year b)); naive_solver lia.
  - destruct (total String.le (station_id a) (station_id b)); naive_solver.
Qed.

#[global] Instance yoy_le_trans : Transitive yoy_le.
Proof.
  intros a b c. unfold yoy_le.
  intros [[N1 L1]|[E1 H1]] [[N2 L2]|[E2 H2]].
  - left. split.
    + intros E. rewrite <- E in L2. apply N1. by apply (anti_symm String.le).
    + by transitivity (station_id b).
  - left. rewrite <- E2. done.
  - left. rewrite E1. done.
  - right. split; [congruence|]. lia.
Qed.

Lemma yoy_le_antisym a b :
  yoy_le a b → yoy_le b a →
  station_id a = station_id b ∧ month a = month b ∧ year a = year b.
Proof.
  unfold yoy_le. intros [[N1 L1]|[E1 H1]] [[N2 L2]|[E2 H2]]; try congruence.
  - exfalso. apply N1. by apply (anti_symm String.le).
  - split; [done|]. lia.
Qed.

(** ** Year-over-year delta *)

#[global] Instance year_le_total : Total year_le.
Proof. intros a b. unfold year_le. lia. Qed.

#[global] Instance year_le_trans : Transitive year_le.
Proof. intros a b c. unfold year_le. lia. Qed.

Lemma NoDup_fmap_eq {A B} (f : A → B) (l : list A) x y :
  NoDup (f <$> l) → x ∈ l → y ∈ l → f x = f y → x = y.
Proof.
  induction l as [|z l IH]; intros Hnd Hx Hy E; [by inv Hx|].
  rewrite fmap_cons in Hnd. apply NoDup_cons in Hnd as [Hz Hnd].
  inv Hx; inv Hy; auto.
  - exfalso. apply Hz. rewrite E. by apply list_elem_of_fmap_2.
  - exfalso. apply Hz. rewrite <- E. by apply list_elem_of_fmap_2.
Qed.

Lemma key3_eq a b :
  station_id a = station_id b → month a = month b → year a = year b →
  key3 a = key3 b.
Proof. unfold key3. congruence. Qed.

Lemma sorted_frame_unique (l l' : list MonthlyAggregate) :
  NoDup (key3 <$> l) → l ≡ₚ l' →
  merge_sort yoy_le l = merge_sort yoy_le l'.
Proof.
  intros Hnd Hp.
  apply (Sorted_unique_strong yoy_le).
  - intros x y Hx Hy Hxy Hyx.
    apply (NoDup_fmap_eq key3 l); [done| | |].
    + by rewrite merge_sort_Permutation in Hx.
    + rewrite merge_sort_Permutation in Hy. by rewrite Hp.
    + destruct (yoy_le_antisym _ _ Hxy Hyx) as (?&?&?). by apply key3_eq.
  - apply Sorted_merge_sort; apply _.
  - apply Sorted_merge_sort; apply _.
  - by rewrite !merge_sort_Permutation.
Qed.

Lemma group_diff_monthly seen frame : monthly <$> group_diff seen frame = frame.
Proof.
  revert seen. induction frame as [|a rest IH]; intros seen; [done|].
  simpl. by rewrite IH.
Qed.

Lemma group_diff_lookup A : ∀ seen a B,
  group_diff seen (A ++ a :: B) !! length A =
  Some (mkYoy a ((fun p => temperature_celsius_avg a - temperature_celsius_avg p)%Q
                   <$> previous_in_group a (reverse A ++ seen))).
Proof.
  induction A as [|x A IH]; intros seen a B; [done|].
  simpl. rewrite IH. by rewrite reverse_cons, <- app_assoc.
Qed.

Lemma find_reverse_last {A} (p : A → bool) (l : list A) :
  List.find p (reverse l) = last (filter (fun x => Is_true (p x)) l).
Proof.
  induction l as [|x l IH] using rev_ind; [done|].
  rewrite reverse_snoc, filter_app. simpl.
  destruct (p x) eqn:E.
  - rewrite filter_cons_True by (by apply Is_true_true).
    by rewrite filter_nil, last_snoc.
  - rewrite filter_cons_False by (by apply Is_true_false).
    by rewrite filter_nil, app_nil_r.
Qed.

Lemma filter_ext_iff {A} (P Q : A → Prop) `{∀ x, Decision (P x)} `{∀ x, Decision (Q x)}
  (l : list A) : (∀ x, P x ↔ Q x) → filter P l = filter Q l.
Proof.
  intros HPQ. induction l as [|x l IH]; [done|].
  rewrite !filter_cons. rewrite IH.
  destruct (decide (P x)) as [p|np], (decide (Q x)) as [q|nq]; try done.
  - exfalso. apply nq. by apply HPQ.
  - exfalso. apply np. by apply HPQ.
Qed.

Lemma previous_in_group_last a A :
  previous_in_group a (reverse A) =
  last (filter (fun p => series_key p = series_key a) A).
Proof.
  unfold previous_in_group. rewrite find_reverse_last.
  f_equal. apply filter_ext_iff. intros x. by rewrite bool_decide_spec.
Qed.

Lemma StronglySorted_filter {A} (R : relation A) (P : A → Prop)
  `{∀ x, Decision (P x)} (l : list A) :
  StronglySorted R l → StronglySorted R (filter P l).
Proof.
  induction 1 as [|x l Hl IH Hx]; [constructor|].
  rewrite filter_cons. destruct (decide (P x)); [|done].
  constructor; [done|].
  apply Forall_forall. intros y Hy. apply list_elem_of_filter in Hy as [_ Hy].
  rewrite Forall_forall in Hx. auto.
Qed.

Lemma StronglySorted_weaken {A} (R R' : relation A) (l : list A) :
  (∀ x y, x ∈ l → y ∈ l → R x y → R' x y) →
  StronglySorted R l → StronglySorted R' l.
Proof.
  intros Hw Hl. induction Hl as [|x l Hl IH Hx]; [constructor|].
  constructor.
  - apply IH. intros ????. apply Hw; by constructor.
  - rewrite Forall_forall in *. intros y Hy. apply Hw; [by left|by right|auto].
Qed.

(** The rows of one series, taken from the sorted frame, are the
    partition of that series ordered by year. *)
Lemma series_of_sorted_frame g (l : list MonthlyAggregate) :
  NoDup (key3 <$> l) →
  filter (fun a => series_key a = g) (merge_sort yoy_le l) = partition_of g l.
Proof.
  intros Hnd. unfold partition_of.
  assert (Hin : ∀ x, x ∈ filter (fun a => series_key a = g) (merge_sort yoy_le l) →
                     series_key x = g ∧ x ∈ l).
  { intros x Hx. apply list_elem_of_filter in Hx as [? Hx].
    by rewrite merge_sort_Permutation in Hx. }
  apply (StronglySorted_unique_strong year_le).
  - intros x y Hx Hy Hxy Hyx.
    apply Hin in Hx as [Gx Hx].
    rewrite merge_sort_Permutation in Hy.
    apply list_elem_of_filter in Hy as [Gy Hy].
    apply (NoDup_fmap_eq key3 l); [done..|].
    unfold year_le in *. unfold series_key in *.
    apply key3_eq; [congruence|congruence|lia].
  - apply (StronglySorted_weaken yoy_le).
    + intros x y Hx Hy. apply Hin in Hx as [Gx _]. apply Hin in Hy as [Gy _].
      unfold yoy_le, year_le, series_key in *.
      intros [[N _]|[_ [M|[_ Y]]]]; [congruence| |done].
      assert (month x = month y) by congruence. lia.
    + apply StronglySorted_filter, StronglySorted_merge_sort; apply _.
  - apply StronglySorted_merge_sort; apply _.
  - by rewrite !merge_sort_Permutation.
Qed.

Lemma yoy_row_of_partition (l : list MonthlyAggregate) g i a :
  NoDup (key3 <$> l) →
  partition_of g l !! i = Some a →
  mkYoy a (delta_at (partition_of g l) i) ∈ calculate_yoy_delta l.
Proof.
  intros Hnd Hi.
  assert (HP := series_of_sorted_frame g l Hnd).
  assert (Ha : a ∈ partition_of g l) by (by eapply list_elem_of_lookup_2).
  assert (Hg : series_key a = g).
  { rewrite <- HP in Ha. by apply list_elem_of_filter in Ha as [? _]. }
  assert (HaS : a ∈ merge_sort yoy_le l).
  { rewrite <- HP in Ha. by apply list_elem_of_filter in Ha as [_ ?]. }
  apply list_elem_of_split in HaS as (A & B & HS).
  assert (HPs : partition_of g l =
                filter (fun p => series_key p = g) A ++ a :: filter (fun p => series_key p = g) B).
  { rewrite <- HP, HS, filter_app, filter_cons_True by done. done. }
  assert (NP : NoDup (partition_of g l)).
  { unfold partition_of. rewrite merge_sort_Permutation.
    apply NoDup_filter. by eapply NoDup_fmap_1. }
  assert (Ei : i = length (filter (fun p => series_key p = g) A)).
  { eapply NoDup_lookup; [exact NP|exact Hi|].
    rewrite HPs. by rewrite list_lookup_middle. }
  unfold calculate_yoy_delta. rewrite HS.
  eapply list_elem_of_lookup_2 with (i := length A).
  rewrite group_diff_lookup, app_nil_r, previous_in_group_last, Hg.
  do 2 f_equal.
  rewrite last_lookup. rewrite <- Ei.
  destruct i as [|j]; simpl.
  - symmetry in Ei. apply nil_length_inv in Ei. by rewrite Ei.
  - rewrite Hi.
    assert (Hj : partition_of g l !! j = filter (fun p => series_key p = g) A !! j).
    { rewrite HPs. apply lookup_app_l. lia. }
    rewrite Hj.
    destruct (filter _ A !! j) eqn:Ej; [done|].
    apply lookup_ge_None in Ej. lia.
Qed.

Lemma sorted_pair (a b : MonthlyAggregate) :
  station_id a = station_id b → month a = month b → (year a < year b)%Z →
  merge_sort yoy_le [a; b] = [a; b] ∧ merge_sort yoy_le [b; a] = [a; b].
Proof.
  intros Hs Hm Hy.
  assert (Hab : yoy_le a b) by (right; split; [done|right; split; [done|lia]]).
  assert (Hasym : ∀ x1 x2 : MonthlyAggregate,
             x1 ∈ [a; b] → x2 ∈ [a; b] → yoy_le x1 x2 → yoy_le x2 x1 → x1 = x2).
  { intros x1 x2 H1 H2 L1 L2.
    destruct (yoy_le_antisym _ _ L1 L2) as (_ & _ & Ey).
    set_unfold. destruct H1 as [->|[->|[]]], H2 as [->|[->|[]]]; try done; lia. }
  assert (Hsorted : Sorted yoy_le [a; b]).
  { apply Sorted_cons; [apply Sorted_cons; [apply Sorted_nil|apply HdRel_nil]|].
    apply HdRel_cons, Hab. }
  split; symmetry.
  - apply (Sorted_unique_strong yoy_le); [| done | |].
    + intros x1 x2 H1 H2. rewrite merge_sort_Permutation in H2. by apply Hasym.
    + apply Sorted_merge_sort; apply _.
    + by rewrite merge_sort_Permutation.
  - apply (Sorted_unique_strong yoy_le); [| done | |].
    + intros x1 x2 H1 H2. rewrite merge_sort_Permutation in H2.
      apply Hasym; [done|]. set_unfold. tauto.
    + apply Sorted_merge_sort; apply _.
    + rewrite merge_sort_Permutation. apply Permutation_swap.
Qed.

(** C4. On monthly aggregates that are keyed by (station, year, month),
    the year-over-year calculator returns the input rows ordered by
    (station, month, year); the [i]-th row of every (station, month)
    partition ordered by year gets the value of that row minus the value
    of the row before it, and no delta when it is the first; the result
    is the same for every permutation of the input. Two rows of one
    station and month with averages 4.0 in 2022 and 5.0 in 2023 get no
    delta for 2022 and a delta equal to 1.0 for 2023, in either input
    order. *)
Theorem yoy_delta_by_partition (l : list MonthlyAggregate) :
  NoDup (key3 <$> l) →
  monthly <$> calculate_yoy_delta l ≡ₚ l ∧
  Sorted yoy_le (monthly <$> calculate_yoy_delta l) ∧
  (∀ g i a, partition_of g l !! i = Some a →
            mkYoy a (delta_at (partition_of g l) i) ∈ calculate_yoy_delta l) ∧
  (∀ l', l' ≡ₚ l → calculate_yoy_delta l' = calculate_yoy_delta l) ∧
  (∀ a b, l = [a; b] ∨ l = [b; a] →
          station_id a = station_id b → month a = month b →
          year a = 2022%Z → year b = 2023%Z →
          (temperature_celsius_avg a == 4)%Q → (temperature_celsius_avg b == 5)%Q →
          ∃ d, calculate_yoy_delta l = [mkYoy a None; mkYoy b (Some d)] ∧ (d == 1)%Q).
Proof.
  intros Hnd. unfold calculate_yoy_delta.
  rewrite group_diff_monthly.
  split; [apply merge_sort_Permutation|].
  split; [apply Sorted_merge_sort; apply _|].
  split; [intros g i a; by apply yoy_row_of_partition|].
  split.
  - intros l' Hp. f_equal. symmetry. by apply sorted_frame_unique.
  - intros a b Hl Hs Hm Ya Yb Va Vb.
    destruct (sorted_pair a b Hs Hm) as [S1 S2]; [lia|].
    exists (temperature_celsius_avg b - temperature_celsius_avg a)%Q.
    split; [|rewrite Va, Vb; reflexivity].
    assert (Hsort : merge_sort yoy_le l = [a; b]) by (by destruct Hl as [->| ->]).
    rewrite Hsort. simpl. unfold previous_in_group. simpl.
    rewrite bool_decide_eq_true_2; [done|].
    unfold series_key. congruence.
Qed.

Lemma yoy_delta_by_partition_witness :
  NoDup (key3 <$> yoy_sample) ∧
  monthly <$> calculate_yoy_delta yoy_sample ≡ₚ yoy_sample.
Proof.
  assert (H : NoDup (key3 <$> yoy_sample)).
  { apply (bool_decide_unpack _). vm_compute. exact I. }
  split; [exact H|].
  exact (proj1 (yoy_delta_by_partition yoy_sample H)).
Defined.

Example yoy_sample_deltas :
  temperature_celsius_yoy_avg <$> calculate_yoy_delta yoy_sample
  = [None; Some 1%Q; None; Some 1%Q].
Proof. vm_compute. reflexivity. Qed.

(** ** Monthly aggregation *)









Lemma mapR_Ok_inv {A B} (f : A → Result B) (l : list A) (ys : list B) :
  mapR f l = Ok ys → Forall2 (fun x y => f x = Ok y) l ys.
Proof.
  revert ys. induction l as [|x l IH]; intros ys; simpl.
  - intros [= <-]. constructor.
  - destruct (f x) as [y|e] eqn:E; [|done].
    destruct (mapR f l) as [ys'|e]; [|done].
    intros [= <-]. constructor; auto.
Qed.

Lemma bindR_Ok_inv {A B} (m : Result A) (f : A → Result B) (b : B) :
  bindR m f = Ok b → ∃ a, m = Ok a ∧ f a = Ok b.
Proof. destruct m as [a|e]; simpl; [eauto|done]. Qed.

Lemma observe_row to_datetime dtc tc r ts o :
  to_datetime_cell to_datetime (cell r dtc) = Ok ts →
  observe tc (r, ts) = Ok o → o = row_observation to_datetime dtc tc r.
Proof.
  unfold observe, row_observation, to_datetime_cell, numeric. simpl.
  destruct (cell r tc), (cell r "station_id"), (cell r dtc), ts;
    simpl; try destruct (to_datetime _); intros; simplify_eq; done.
Qed.

Lemma row_observation_null to_datetime dtc tc r :
  is_null (cell r tc) = true → row_observation to_datetime dtc tc r = None.
Proof. unfold row_observation. by destruct (cell r tc). Qed.

Lemma observations_of_rows to_datetime dtc tc (rs : list Row) :
  ∀ stamped l,
    mapR (fun r => let* ts := to_datetime_cell to_datetime (cell r dtc) in Ok (r, ts)) rs
      = Ok stamped →
    mapR (observe tc)
      (List.filter (fun rt : Row * option Timestamp => negb (is_null (cell rt.1 tc))) stamped)
      = Ok l →
    omap id l = omap (row_observation to_datetime dtc tc) rs.
Proof.
  induction rs as [|r rs IH]; intros stamped l Hs Hl.
  - simpl in Hs. injection Hs as <-. simpl in Hl. by injection Hl as <-.
  - simpl in Hs.
    destruct (to_datetime_cell to_datetime (cell r dtc)) as [ts|e] eqn:Ets; [|done].
    simpl in Hs.
    destruct (mapR _ rs) as [stamped'|e] eqn:Es; [|done].
    injection Hs as <-. simpl in Hl.
    destruct (is_null (cell r tc)) eqn:En; simpl in Hl.
    + simpl. rewrite row_observation_null by done. by eapply IH.
    + destruct (observe tc (r, ts)) as [o|e] eqn:Eo; [|done].
      destruct (mapR (observe tc) _) as [l'|e] eqn:El; [|done].
      injection Hl as <-.
      apply (observe_row to_datetime dtc) in Eo; [|done]. subst o.
      specialize (IH _ _ eq_refl El).
      change (omap id (row_observation to_datetime dtc tc r :: l'))
        with (from_option (λ y, y :: omap id l') (omap id l') (row_observation to_datetime dtc tc r)).
      change (omap (row_observation to_datetime dtc tc) (r :: rs))
        with (from_option (λ y, y :: omap (row_observation to_datetime dtc tc) rs) (omap (row_observation to_datetime dtc tc) rs) (row_observation to_datetime dtc tc r)).
      by rewrite IH.
Qed.

(** What a successful run of the aggregation returns. *)
Lemma transform_Ok_inv to_datetime t1 t2 df aggs :
  transform_weather_data_with to_datetime t1 t2 df = Ok aggs →
  ∃ dtc tc,
    resolve_column "Date/Time (LST)" "Date/Time" df = Some dtc ∧
    resolve_column t1 t2 df = Some tc ∧
    aggs = groupby_agg (omap (row_observation to_datetime dtc tc) (rows df)).
Proof.
  unfold transform_weather_data_with.
  destruct (resolve_column "Date/Time (LST)" "Date/Time" df) as [dtc|]; [|done].
  intros H. apply bindR_Ok_inv in H as (stamped & Hs & H).
  destruct (resolve_column t1 t2 df) as [tc|]; [|done].
  destruct (has_column df "station_id"); [|done].
  apply bindR_Ok_inv in H as (obs & Ho & H). injection H as <-.
  unfold observations in Ho. apply bindR_Ok_inv in Ho as (l & Hl & Ho).
  injection Ho as <-.
  exists dtc, tc. split; [done|]. split; [done|].
  f_equal. by eapply observations_of_rows.
Qed.

Lemma mapR_total {A B} (f : A → Result B) (l : list A) :
  Forall (fun x => ∃ y, f x = Ok y) l → ∃ ys, mapR f l = Ok ys.
Proof.
  induction 1 as [|x l [y Hy] _ [ys IH]]; simpl; [by eexists|].
  rewrite Hy, IH. by eexists.
Qed.

(** The aggregation returns on every frame that has the columns and
    whose rows are readable. *)
Lemma transform_total to_datetime t1 t2 df dtc tc :
  resolve_column "Date/Time (LST)" "Date/Time" df = Some dtc →
  resolve_column t1 t2 df = Some tc →
  "station_id" ∈ columns df →
  Forall (readable_row to_datetime dtc tc) (rows df) →
  ∃ aggs, transform_weather_data_with to_datetime t1 t2 df = Ok aggs.
Proof.
  intros Hd Ht Hs Hr. unfold transform_weather_data_with. rewrite Hd, Ht.
  unfold has_column. rewrite bool_decide_eq_true_2 by done.
  destruct (stamp_rows to_datetime dtc df) as [stamped|e] eqn:Es.
  - simpl.
    assert (Hob : ∃ l, mapR (observe tc)
              (List.filter (fun rt : Row * option Timestamp =>
                 negb (is_null (cell rt.1 tc))) stamped) = Ok l).
    { apply mapR_total. apply Forall_forall. intros [r ts] Hin.
      apply list_elem_of_In, filter_In in Hin as [Hin _].
      apply list_elem_of_In in Hin.
      unfold stamp_rows in Es. apply mapR_Ok_inv in Es.
      assert (Hrow : r ∈ rows df).
      { clear -Es Hin. induction Es as [|x y l l' Hxy _ IH]; [by inv Hin|].
        apply bindR_Ok_inv in Hxy as (t & _ & [= <-]).
        inv Hin; [left|right; auto]. }
      rewrite Forall_forall in Hr. destruct (Hr r Hrow) as (_ & H2 & H3).
      unfold observe, numeric. simpl.
      destruct (cell r tc); [by eexists| |done]. simpl.
      destruct (cell r "station_id"), ts; try done; by eexists. }
    destruct Hob as [l Hl]. unfold observations. rewrite Hl. simpl. by eexists.
  - exfalso. unfold stamp_rows in Es.
    assert (Hall : Forall (fun r => ∃ y,
              (let* ts := to_datetime_cell to_datetime (cell r dtc) in Ok (r, ts)) = Ok y)
              (rows df)).
    { eapply Forall_impl; [exact Hr|]. intros r (H1 & _ & _). simpl in *.
      unfold to_datetime_cell. destruct (cell r dtc) as [|q|d]; [by eexists|done|].
      destruct H1 as [t ->]. by eexists. }
    apply mapR_total in Hall as [ys Hys]. congruence.
Qed.


Lemma transform_sample_run :
  WeatherUtils.transform_weather_data parse_iso transform_sample
  = Ok transform_sample_aggregates.
Proof. vm_compute. reflexivity. Qed.


(** ** Quality audit: missing dates *)







(** ** Quality audit: nulls and outliers *)

(** The two band tests are the comparisons with [mean - 3 * std] and
    [mean + 3 * std] for any non-negative [std] whose square is the
    variance. *)
Lemma Qltb_lt (a b : Q) : Qltb a b = true ↔ (a < b)%Q.
Proof.
  unfold Qltb. rewrite negb_true_iff. split.
  - intros H. apply Qnot_le_lt. intros L. apply Qle_bool_iff in L. congruence.
  - intros H. apply not_true_is_false. intros L. apply Qle_bool_iff in L.
    exact (Qlt_not_le _ _ H L).
Qed.

Lemma below_band_root (m var std x : Q) :
  (0 <= std)%Q → (std * std == var)%Q →
  below_band m var x = true ↔ (x < m - 3 * std)%Q.
Proof.
  intros Hs Hv. unfold below_band, Qsq.
  rewrite andb_true_iff, !Qltb_lt, <- Hv. split.
  - intros [H1 H2]. apply Qnot_le_lt. intros L. nra.
  - intros H. split; nra.
Qed.

Lemma above_band_root (m var std x : Q) :
  (0 <= std)%Q → (std * std == var)%Q →
  above_band m var x = true ↔ (m + 3 * std < x)%Q.
Proof.
  intros Hs Hv. unfold above_band, Qsq.
  rewrite andb_true_iff, !Qltb_lt, <- Hv. split.
  - intros [H1 H2]. apply Qnot_le_lt. intros L. nra.
  - intros H. split; nra.
Qed.







(** ** Loading the raw batches *)

Lemma load_loop_spec (csv_files : list RawFile) : ∀ all_data log,
  load_loop csv_files all_data log
  = (all_data ++ usable csv_files, log ++ failure_records csv_files).
Proof.
  induction csv_files as [|f fs IH]; intros all_data log.
  - simpl. by rewrite !app_nil_r.
  - simpl. unfold usable, failure_records. simpl.
    destruct (process_file f) as [df|e]; rewrite IH; simpl;
      by rewrite <- ?app_assoc.
Qed.

Lemma usable_nil_iff (csv_files : list RawFile) :
  usable csv_files = [] ↔ Forall (fun f => is_ok (process_file f) = false) csv_files.
Proof.
  induction csv_files as [|f fs IH]; [by split; [constructor|]|].
  unfold usable in *. simpl. destruct (process_file f) as [df|e] eqn:E; simpl.
  - split; [done|]. intros H. inv H. rewrite E in *. done.
  - rewrite IH. split; [intros H; constructor; [by rewrite E|done]|].
    intros H. by inv H.
Qed.

Lemma failure_record_logged (csv_files : list RawFile) f e :
  f ∈ csv_files → process_file f = Raise e →
  processing_error f e ∈ failure_records csv_files.
Proof.
  intros Hf He. unfold failure_records. apply list_elem_of_omap.
  exists f. split; [done|]. by rewrite He.
Qed.

(** C6. Every batch that fails to parse leaves an error record in the
    log and is skipped: when at least one batch is usable the loader
    returns the concatenation of the usable batches, in order, and the
    log holds the records of the failed ones only; the loader fails
    exactly when no batch is usable, that is when every batch fails,
    with [ValueError('No valid data files were processed')] when there
    are batches and with [FileNotFoundError] when there is none. *)
Theorem load_skips_failed_batches (raw_data_dir : string) (csv_files : list RawFile) :
  (∀ f e, f ∈ csv_files → process_file f = Raise e →
          processing_error f e ∈ (load_weather_data raw_data_dir csv_files).1) ∧
  (is_ok (load_weather_data raw_data_dir csv_files).2 = false
     ↔ Forall (fun f => is_ok (process_file f) = false) csv_files) ∧
  (usable csv_files ≠ [] →
     load_weather_data raw_data_dir csv_files
     = (failure_records csv_files, Ok (concat (usable csv_files)))) ∧
  (csv_files ≠ [] → usable csv_files = [] →
     load_weather_data raw_data_dir csv_files
     = (failure_records csv_files ++ ["No valid data files were processed"],
        Raise (ValueError "No valid data files were processed"))) ∧
  (csv_files = [] →
     (load_weather_data raw_data_dir csv_files).2
     = Raise (FileNotFoundError ("No raw data files found in " +:+ raw_data_dir))).
Proof.
  assert (Hload : csv_files ≠ [] →
            load_weather_data raw_data_dir csv_files =
            match usable csv_files with
            | [] => (failure_records csv_files ++ ["No valid data files were processed"],
                     Raise (ValueError "No valid data files were processed"))
            | _ => (failure_records csv_files, Ok (concat (usable csv_files)))
            end).
  { intros Hne. unfold load_weather_data. destruct csv_files as [|f fs]; [done|].
    rewrite load_loop_spec. simpl. by destruct (usable (f :: fs)). }
  split; [|split; [|split; [|split]]].
  - intros f e Hf He.
    assert (Hne : csv_files ≠ []) by (intros ->; by inv Hf).
    rewrite (Hload Hne).
    pose proof (failure_record_logged _ _ _ Hf He) as Hin.
    destruct (usable csv_files); simpl; [|done].
    apply elem_of_app. by left.
  - rewrite <- usable_nil_iff.
    destruct csv_files as [|f fs]; [done|].
    rewrite Hload by done. by destruct (usable (f :: fs)).
  - intros Hu. rewrite Hload by (intros ->; done). by destruct (usable csv_files).
  - intros Hne Hu. rewrite Hload by done. by rewrite Hu.
  - by intros ->.
Qed.

Lemma load_skips_failed_batches_witness :
  usable load_sample ≠ [] ∧
  load_weather_data "raw_data" load_sample
  = (failure_records load_sample, Ok (concat (usable load_sample))).
Proof.
  assert (H : usable load_sample ≠ []) by (vm_compute; discriminate).
  split; [exact H|].
  exact (proj1 (proj2 (proj2 (load_skips_failed_batches "raw_data" load_sample))) H).
Defined.

Example load_sample_log :
  (load_weather_data "raw_data" load_sample).1
  = ["Error processing file raw_data/station_26953.csv: list index out of range";
     "Error processing file raw_data/station_31688_2023.csv: No columns to parse from file"].
Proof. vm_compute. reflexivity. Qed.

(** ** The dimension join *)

Lemma has_column_set_scalar df c v : has_column (set_scalar df c v) c = true.
Proof.
  unfold has_column at 1. unfold set_scalar. simpl. apply bool_decide_eq_true.
  destruct (has_column df c) eqn:E.
  - by apply bool_decide_eq_true in E.
  - apply elem_of_app. right. apply list_elem_of_here.
Qed.

Lemma cell_set_scalar df c v :
  Forall (fun r => cell r c = v) (rows (set_scalar df c v)).
Proof.
  unfold set_scalar. simpl. apply Forall_fmap, Forall_forall. intros r _.
  simpl. unfold cell. by rewrite lookup_insert_eq.
Qed.

Lemma length_rows_set_scalar df c v :
  length (rows (set_scalar df c v)) = length (rows df).
Proof. unfold set_scalar. simpl. by rewrite length_fmap. Qed.

Lemma filter_all {A} (p : A → bool) (l : list A) :
  Forall (fun x => p x = true) l → List.filter p l = l.
Proof.
  induction 1 as [|x l Hx _ IH]; [done|]. simpl. by rewrite Hx, IH.
Qed.

Lemma length_cross {A B C} (f : A → B → C) (l1 : list A) (l2 : list B) :
  length (a ← l1; b ← l2; [f a b]) = (length l1 * length l2)%nat.
Proof.
  induction l1 as [|a l1 IH]; [done|].
  rewrite bind_cons, length_app, IH. simpl. f_equal.
  clear IH. induction l2 as [|b l2 IH2]; [done|].
  rewrite bind_cons, length_app, IH2. done.
Qed.

(** On frames whose key column is the same constant everywhere, the
    merge pairs every left row with every right row. *)
Lemma merge_on_constant_key key v left right :
  has_column left key = true → has_column right key = true →
  key_match v v = true →
  Forall (fun r => cell r key = v) (rows left) →
  Forall (fun r => cell r key = v) (rows right) →
  merge_on key left right
  = Ok {| columns := (left_label key left right <$> columns left) ++
                     (right_label key left right <$> right_columns key right);
          rows := l ← rows left; r ← rows right; [merged_row key left right l r] |}.
Proof.
  intros Hl Hr Hv Fl Fr. unfold merge_on. rewrite Hl, Hr. simpl. do 2 f_equal.
  induction Fl as [|l ls Hlk _ IH]; [done|].
  rewrite !bind_cons, IH. f_equal. rewrite Hlk.
  rewrite filter_all; [done|].
  eapply Forall_impl; [exact Fr|]. intros r ->. exact Hv.
Qed.

Lemma left_label_key key left right : left_label key left right key = key.
Proof. unfold left_label, overlaps. by rewrite String.eqb_refl. Qed.

Lemma find_none_or_elem {A} (p : A → bool) (l : list A) :
  List.find p l = None ∨ ∃ x, List.find p l = Some x ∧ x ∈ l.
Proof.
  destruct (List.find p l) as [x|] eqn:E; [right|by left].
  exists x. split; [done|]. apply find_some in E as [E _]. by apply list_elem_of_In.
Qed.

Lemma fmap_cross {A B C D} (h : C → D) (f : A → B → C) (l1 : list A) (l2 : list B) :
  h <$> (a ← l1; b ← l2; [f a b]) = (a ← l1; b ← l2; [h (f a b)]).
Proof.
  induction l1 as [|a l1 IH]; [done|].
  rewrite !bind_cons, fmap_app, IH. f_equal.
  clear IH. induction l2 as [|b l2 IH2]; [done|].
  rewrite !bind_cons, fmap_app, IH2. done.
Qed.

Lemma join_returned (weather_df geonames_df : DataFrame) :
  returned (join_weather_and_geonames weather_df geonames_df)
  = let combined_df := crossed (set_scalar weather_df "join_key" (Num 1))
                               (set_scalar geonames_df "join_key" (Num 1)) in
    match List.find (fun col => negb (has_column combined_df col)) final_columns with
    | Some col =>
        Raise (ValueError ("Required column '" +:+ col +:+ "' not found in combined data"))
    | None => Ok (select_columns combined_df final_columns)
    end.
Proof.
  unfold join_weather_and_geonames. cbn [returned].
  set (w := set_scalar weather_df "join_key" (Num 1)).
  set (g := set_scalar geonames_df "join_key" (Num 1)).
  rewrite (merge_on_constant_key "join_key" (Num 1) w g);
    [|apply has_column_set_scalar|apply has_column_set_scalar|done
     |apply cell_set_scalar|apply cell_set_scalar].
  cbn [bindR]. unfold drop_column.
  match goal with |- context [has_column ?c "join_key"] =>
    assert (Hk : has_column c "join_key" = true) end.
  { unfold has_column. cbn [columns]. apply bool_decide_eq_true.
    apply elem_of_app. left. apply list_elem_of_fmap.
    exists "join_key". split; [by rewrite left_label_key|].
    pose proof (has_column_set_scalar weather_df "join_key" (Num 1)) as H.
    by apply bool_decide_eq_true in H. }
  rewrite Hk. reflexivity.
Qed.

(** The join is total up to the check of the output columns, and what
    it returns has one row for every pair of a monthly record and a
    dimension row. *)
Lemma join_outcome (weather_df geonames_df : DataFrame) :
  (∃ col, col ∈ final_columns ∧
          returned (join_weather_and_geonames weather_df geonames_df)
          = Raise (ValueError ("Required column '" +:+ col +:+
                               "' not found in combined data"))) ∨
  (∃ final, returned (join_weather_and_geonames weather_df geonames_df) = Ok final ∧
            columns final = final_columns ∧
            rows final
            = (let w := set_scalar weather_df "join_key" (Num 1) in
               let g := set_scalar geonames_df "join_key" (Num 1) in
               l ← rows w; r ← rows g; [final_row w g l r]) ∧
            length (rows final)
            = (length (rows weather_df) * length (rows geonames_df))%nat).
Proof.
  rewrite join_returned. cbv zeta.
  match goal with
  | |- context [List.find ?p final_columns] =>
      destruct (find_none_or_elem p final_columns) as [E|(col & E & Hcol)]; rewrite E
  end.
  - right. eexists. split; [reflexivity|]. split; [done|].
    unfold select_columns, crossed. cbn [rows].
    rewrite !fmap_cross. split; [done|].
    rewrite length_cross. by rewrite !length_rows_set_scalar.
  - left. by exists col.
Qed.







(** C10. The join writes the column [join_key], with the value 1 in
    every row, into both frames of its caller; a frame that did not have
    that column, as the monthly records and the dimension table of the
    pipeline, is therefore not left as it was. *)
Theorem join_mutates_inputs (weather_df geonames_df : DataFrame) :
  let out := join_weather_and_geonames weather_df geonames_df in
  ("join_key" ∈ columns (weather_after out) ∧
   Forall (fun r => cell r "join_key" = Num 1) (rows (weather_after out))) ∧
  ("join_key" ∈ columns (geonames_after out) ∧
   Forall (fun r => cell r "join_key" = Num 1) (rows (geonames_after out))) ∧
  ("join_key" ∉ columns weather_df → weather_after out ≠ weather_df) ∧
  ("join_key" ∉ columns geonames_df → geonames_after out ≠ geonames_df) ∧
  (∀ l, "join_key" ∉ columns (yoy_frame l)) ∧
  "join_key" ∉ geonames_columns.
Proof.
  simpl.
  assert (Hcol : ∀ df, "join_key" ∈ columns (set_scalar df "join_key" (Num 1))).
  { intros df. pose proof (has_column_set_scalar df "join_key" (Num 1)) as H.
    by apply bool_decide_eq_true in H. }
  assert (Hne : ∀ df, "join_key" ∉ columns df → set_scalar df "join_key" (Num 1) ≠ df).
  { intros df Hn E. apply Hn. rewrite <- E. apply Hcol. }
  split; [split; [apply Hcol|apply cell_set_scalar]|].
  split; [split; [apply Hcol|apply cell_set_scalar]|].
  split; [apply Hne|]. split; [apply Hne|].
  split.
  - intros l. apply (bool_decide_unpack _). vm_compute. exact I.
  - apply (bool_decide_unpack _). vm_compute. exact I.
Qed.

Lemma join_mutates_inputs_witness :
  ("join_key" ∉ columns join_sample_geonames) ∧
  geonames_after (join_weather_and_geonames join_sample_weather join_sample_geonames)
  ≠ join_sample_geonames.
Proof.
  assert (H : "join_key" ∉ columns join_sample_geonames).
  { exact (proj2 (proj2 (proj2 (proj2 (proj2
             (join_mutates_inputs join_sample_weather join_sample_geonames)))))). }
  split; [exact H|].
  exact (proj1 (proj2 (proj2 (proj2
           (join_mutates_inputs join_sample_weather join_sample_geonames)))) H).
Defined.

(** ** The extreme-temperature queries *)

#[global] Instance sqlite_le_total : Total sqlite_le.
Proof.
  intros [|x|x] [|y|y]; simpl; auto.
  - destruct (Qlt_le_dec y x) as [H|H]; [right; by apply Qlt_le_weak|by left].
  - apply (total String.le).
Qed.

#[global] Instance sqlite_le_trans : Transitive sqlite_le.
Proof.
  intros [|x|x] [|y|y] [|z|z]; simpl; try done.
  - apply Qle_trans.
  - apply (transitivity (R := String.le)).
Qed.

#[global] Instance order_desc_total col : Total (order_desc col).
Proof. intros a b. unfold order_desc. apply (total sqlite_le). Qed.

#[global] Instance order_asc_total col : Total (order_asc col).
Proof. intros a b. unfold order_asc. apply (total sqlite_le). Qed.

Lemma Sorted_take {A} (R : relation A) (l : list A) : ∀ n,
  Sorted R l → Sorted R (take n l).
Proof.
  induction l as [|x l IH]; intros [|n] Hs; simpl; try constructor.
  - apply IH. by inv Hs.
  - inv Hs. destruct l as [|y l], n as [|n]; simpl; constructor.
    by match goal with H : HdRel _ _ _ |- _ => inv H end.
Qed.

Lemma find_all_false {A} (p : A → bool) (l : list A) :
  Forall (fun x => p x = false) l → List.find p l = None.
Proof. induction 1 as [|x l Hx _ IH]; [done|]. simpl. by rewrite Hx. Qed.

Lemma sql_columns_present (weather_data : DataFrame) (cols : list string) :
  cols ⊆ columns weather_data → sql_columns weather_data cols = Ok tt.
Proof.
  intros Hsub. unfold sql_columns. rewrite find_all_false; [done|].
  apply Forall_forall. intros c Hc. unfold has_column.
  rewrite bool_decide_eq_true_2; [done|]. by apply Hsub.
Qed.

Lemma cell_max_temperature (r : Row) :
  cell (select_as [("station_name", "station_name"); ("date_month", "date_month");
                   ("temperature_celsius_max", "max_temperature")] r)
       "max_temperature"
  = cell r "temperature_celsius_max".
Proof.
  unfold select_as, cell at 1. simpl.
  rewrite lookup_insert_ne by done. rewrite lookup_insert_ne by done.
  by rewrite lookup_insert_eq.
Qed.

Lemma cell_min_temperature (r : Row) :
  cell (select_as [("station_name", "station_name"); ("date_month", "date_month");
                   ("temperature_celsius_min", "min_temperature")] r)
       "min_temperature"
  = cell r "temperature_celsius_min".
Proof.
  unfold select_as, cell at 1. simpl.
  rewrite lookup_insert_ne by done. rewrite lookup_insert_ne by done.
  by rewrite lookup_insert_eq.
Qed.

(** C8. On every table that has the columns of the final dataset the
    queries return; [extreme_high_temps] and [extreme_low_temps] are the
    first ten rows (all rows when there are fewer) of the table ordered
    by maximum temperature descending and by minimum temperature
    ascending, so each has at most ten rows and is ordered that way. *)
Theorem extreme_queries_limited_and_ordered (weather_data : DataFrame) :
  final_columns ⊆ columns weather_data →
  ∃ results,
    run_sql_queries weather_data = Ok results ∧
    (length (rows (extreme_high_temps results)) ≤ 10)%nat ∧
    (length (rows (extreme_low_temps results)) ≤ 10)%nat ∧
    Sorted (order_desc "max_temperature") (rows (extreme_high_temps results)) ∧
    Sorted (order_asc "min_temperature") (rows (extreme_low_temps results)) ∧
    (∃ by_max by_min,
       by_max ≡ₚ rows weather_data ∧
       Sorted (order_desc "temperature_celsius_max") by_max ∧
       length (rows (extreme_high_temps results)) = length (take 10 by_max) ∧
       column_values "max_temperature" (rows (extreme_high_temps results))
         = column_values "temperature_celsius_max" (take 10 by_max) ∧
       by_min ≡ₚ rows weather_data ∧
       Sorted (order_asc "temperature_celsius_min") by_min ∧
       column_values "min_temperature" (rows (extreme_low_temps results))
         = column_values "temperature_celsius_min" (take 10 by_min)).
Proof.
  intros Hsub.
  assert (Hcols : ∀ cols, cols ⊆ final_columns → sql_columns weather_data cols = Ok tt).
  { intros cols Hc. apply sql_columns_present. by transitivity final_columns. }
  unfold run_sql_queries, query4, query5.
  rewrite !Hcols by (apply (bool_decide_unpack _); vm_compute; exact I).
  cbn [bindR]. eexists. split; [reflexivity|]. cbn [extreme_high_temps extreme_low_temps rows].
  set (by_max := merge_sort (order_desc "temperature_celsius_max") (rows weather_data)).
  set (by_min := merge_sort (order_asc "temperature_celsius_min") (rows weather_data)).
  assert (Smax : Sorted (order_desc "temperature_celsius_max") by_max)
    by (apply Sorted_merge_sort; apply _).
  assert (Smin : Sorted (order_asc "temperature_celsius_min") by_min)
    by (apply Sorted_merge_sort; apply _).
  split; [rewrite length_fmap, length_take; lia|].
  split; [rewrite length_fmap, length_take; lia|].
  split.
  { apply Sorted_fmap with (R1 := order_desc "temperature_celsius_max").
    - intros a b. unfold order_desc. by rewrite !cell_max_temperature.
    - by apply Sorted_take. }
  split.
  { apply Sorted_fmap with (R1 := order_asc "temperature_celsius_min").
    - intros a b. unfold order_asc. by rewrite !cell_min_temperature.
    - by apply Sorted_take. }
  exists by_max, by_min.
  split; [apply merge_sort_Permutation|]. split; [done|].
  split; [by rewrite length_fmap|].
  split.
  { unfold column_values. rewrite <- list_fmap_compose.
    apply list_fmap_ext. intros i r _. simpl. apply cell_max_temperature. }
  split; [apply merge_sort_Permutation|]. split; [done|].
  unfold column_values. rewrite <- list_fmap_compose.
  apply list_fmap_ext. intros i r _. simpl. apply cell_min_temperature.
Qed.

Lemma extreme_queries_limited_and_ordered_witness :
  final_columns ⊆ columns sql_sample ∧
  ∃ results,
    run_sql_queries sql_sample = Ok results ∧
    length (rows (extreme_high_temps results)) = 10%nat.
Proof.
  assert (H : final_columns ⊆ columns sql_sample).
  { apply (bool_decide_unpack _). vm_compute. exact I. }
  split; [exact H|].
  destruct (extreme_queries_limited_and_ordered sql_sample H)
    as (results & Hrun & _ & _ & _ & _ & by_max & _ & Hp & _ & Hlen & _).
  exists results. split; [exact Hrun|].
  rewrite Hlen, length_take, Hp. vm_compute. reflexivity.
Defined.

(** ** Resolution of the column labels *)

Lemma resolve_column_Some a b df c :
  resolve_column a b df = Some c ↔
  (a ∈ columns df ∧ c = a) ∨ ((a ∉ columns df) ∧ b ∈ columns df ∧ c = b).
Proof.
  unfold resolve_column, has_column. repeat case_bool_decide; intuition congruence.
Qed.

Lemma resolve_column_None a b df :
  resolve_column a b df = None ↔ (a ∉ columns df) ∧ (b ∉ columns df).
Proof.
  unfold resolve_column, has_column. repeat case_bool_decide; intuition congruence.
Qed.

(** Without a timestamp column the aggregation raises; so it does
    without a column under one of the two temperature labels it looks
    for, and when the timestamps could be read the exception is the
    [ValueError] of the temperature check. *)
Lemma transform_without_timestamp to_datetime t1 t2 df :
  "Date/Time (LST)" ∉ columns df → "Date/Time" ∉ columns df →
  transform_weather_data_with to_datetime t1 t2 df
  = Raise (ValueError "Date/Time column not found in weather data").
Proof.
  intros H1 H2. unfold transform_weather_data_with.
  by rewrite (proj2 (resolve_column_None _ _ _) (conj H1 H2)).
Qed.

Lemma transform_without_temperature to_datetime t1 t2 df :
  t1 ∉ columns df → t2 ∉ columns df →
  is_ok (transform_weather_data_with to_datetime t1 t2 df) = false ∧
  (∀ c stamped,
     resolve_column "Date/Time (LST)" "Date/Time" df = Some c →
     stamp_rows to_datetime c df = Ok stamped →
     transform_weather_data_with to_datetime t1 t2 df
     = Raise (ValueError "Temperature column not found in weather data")).
Proof.
  intros H1 H2. unfold transform_weather_data_with.
  rewrite (proj2 (resolve_column_None t1 t2 df) (conj H1 H2)).
  split.
  - destruct (resolve_column _ _ df); [|done].
    by destruct (stamp_rows to_datetime s df).
  - intros c stamped -> ->. done.
Qed.

(** C7, at the input on which the copy in [data_transformation.py]
    departs from it: the frame has the column [Temp (°C)], the first
    accepted temperature label, and that copy raises the error of a
    missing temperature column, because the two labels it looks for are
    spelled with another character; the copy in [dags/weather_utils.py]
    aggregates the same frame. *)
Theorem transform_rejects_degree_label :
  "Temp (°C)" ∈ columns transform_sample ∧
  DataTransformation.transform_weather_data parse_iso transform_sample
  = Raise (ValueError "Temperature column not found in weather data") ∧
  WeatherUtils.transform_weather_data parse_iso transform_sample
  = Ok transform_sample_aggregates.
Proof.
  split; [apply (bool_decide_unpack _); vm_compute; exact I|].
  split; vm_compute; reflexivity.
Qed.

(** ** Saving the analysis results *)

Section SaveProperties.

Variable py_str : PyVal → string.

Lemma to_json_py_cell c : to_json py_str (py_cell c) = Ok (json_cell c).
Proof. by destruct c. Qed.

Lemma to_json_record (r : Row) (cols : list string) :
  to_json py_str (PDict ((fun c => (PStr c, py_cell (cell r c))) <$> cols))
  = Ok (JObj ((fun c => (c, json_cell (cell r c))) <$> cols)).
Proof.
  cbn [to_json].
  match goal with |- bindR ?m _ = _ =>
    assert (E : m = Ok ((fun c => (c, json_cell (cell r c))) <$> cols));
      [|by rewrite E] end.
  induction cols as [|c cols IH]; [done|].
  rewrite !fmap_cons. cbn [json_key bindR]. rewrite to_json_py_cell. cbn [bindR].
  by rewrite IH.
Qed.

Lemma to_json_records (df : DataFrame) :
  to_json py_str (to_dict_records df) = Ok (json_records df).
Proof.
  unfold to_dict_records, json_records. cbn [to_json].
  match goal with |- bindR ?m _ = _ =>
    assert (E : m = Ok ((fun r : Row =>
               JObj ((fun c => (c, json_cell (cell r c))) <$> columns df)) <$> rows df));
      [|by rewrite E] end.
  induction (rows df) as [|r rs IH]; [done|].
  rewrite !fmap_cons. rewrite to_json_record. cbn [bindR]. by rewrite IH.
Qed.

Lemma to_json_frames (frames : list (string * DataFrame)) :
  to_json py_str
    (PDict (convert_items ((fun nf : string * DataFrame => (PStr nf.1, PFrame nf.2))
                             <$> frames)))
  = Ok (JObj ((fun nf : string * DataFrame => (nf.1, json_records nf.2)) <$> frames)).
Proof.
  cbn [to_json].
  match goal with |- bindR ?m _ = _ =>
    assert (E : m = Ok ((fun nf : string * DataFrame => (nf.1, json_records nf.2))
                          <$> frames)); [|by rewrite E] end.
  induction frames as [|[name df] frames IH]; [done|].
  unfold convert_items in *. rewrite !fmap_cons. cbn [fst snd json_key bindR].
  rewrite to_json_records. cbn [bindR]. by rewrite IH.
Qed.

Lemma dump_to_existing dir path obj fs :
  dir ∈ dirs fs →
  dump_to py_str dir path obj fs
  = match to_json py_str obj with
    | Ok j => ({| dirs := dirs fs; files := <[path := JsonText j]> (files fs) |}, Ok tt)
    | Raise e => ({| dirs := dirs fs; files := <[path := Truncated]> (files fs) |}, Raise e)
    end.
Proof. intros H. unfold dump_to. by rewrite bool_decide_eq_true_2. Qed.

Lemma ensure_dir_existing dir fs : dir ∈ dirs fs → ensure_dir dir fs = fs.
Proof. intros H. unfold ensure_dir. by rewrite bool_decide_eq_true_2. Qed.

(** C9, as the code has it. With the output directory in place, the
    save step writes the artifact and returns its path for a string
    (wrapped under [raw_data]), for [None] (a message under [error]),
    for every value that is neither a string, [None] nor a mapping (its
    [str] under [raw_data]) and for a mapping that the JSON encoder
    accepts once its frames are turned into records (in particular a
    mapping from query names to frames); for a mapping that the
    encoder rejects it writes an incomplete file and raises the
    encoder's exception. *)
Theorem save_analysis_results_outcome (results : PyVal)
  (output_dir output_file : string) (fs : FileSystem) :
  output_dir ∈ dirs fs →
  let path := path_join output_dir output_file in
  let out := save_analysis_results py_str results output_dir output_file fs in
  let saved (j : Json) := out.2 = Ok path ∧ files out.1 !! path = Some (JsonText j) in
  match results with
  | PStr s => saved (JObj [("raw_data", JStr s)])
  | PNone => saved (JObj [("error", JStr "No results data available")])
  | PDict items =>
      match to_json py_str (PDict (convert_items items)) with
      | Ok j => saved j
      | Raise e => out.2 = Raise e ∧ files out.1 !! path = Some Truncated
      end ∧
      (∀ frames : list (string * DataFrame),
         items = (fun nf : string * DataFrame => (PStr nf.1, PFrame nf.2)) <$> frames →
         saved (JObj ((fun nf : string * DataFrame => (nf.1, json_records nf.2))
                        <$> frames)))
  | other => saved (JObj [("raw_data", JStr (py_str other))])
  end.
Proof.
  intros Hdir path out saved.
  assert (Hdict : ∀ items,
            results = PDict items →
            match to_json py_str (PDict (convert_items items)) with
            | Ok j => saved j
            | Raise e => out.2 = Raise e ∧ files out.1 !! path = Some Truncated
            end).
  { intros items ->. subst saved out. unfold save_analysis_results.
    rewrite ensure_dir_existing by done. rewrite dump_to_existing by done.
    fold path. destruct (to_json py_str (PDict (convert_items items))); simpl;
      by rewrite lookup_insert_eq. }
  destruct results as [|b|q| |s|l|items|df|repr];
    try (subst saved out path; unfold save_analysis_results;
         rewrite ?ensure_dir_existing by done; rewrite dump_to_existing by done;
         simpl; by rewrite lookup_insert_eq).
  split; [by apply Hdict|].
  intros frames ->. specialize (Hdict _ eq_refl). by rewrite to_json_frames in Hdict.
Qed.

End SaveProperties.

Lemma save_analysis_results_outcome_witness :
  "output" ∈ dirs save_sample_fs ∧
  (save_analysis_results sample_str PNone "output" "analysis_results.json" save_sample_fs).2
  = Ok "output/analysis_results.json".
Proof.
  assert (H : "output" ∈ dirs save_sample_fs).
  { apply (bool_decide_unpack _). vm_compute. exact I. }
  split; [exact H|].
  exact (proj1 (save_analysis_results_outcome sample_str PNone "output"
                  "analysis_results.json" save_sample_fs H)).
Defined.

(** A mapping that holds an object the JSON encoder does not know makes
    the save step raise, with the output directory in place. *)
Lemma save_raises_on_unserialisable_mapping :
  (save_analysis_results sample_str
     (PDict [(PStr "extreme_high_temps", PObject "<sqlite3.Cursor object>")])
     "output" "analysis_results.json" save_sample_fs).2
  = Raise (TypeError "Object is not JSON serializable").
Proof. vm_compute. reflexivity. Qed.

(** The fail-safe branch for strings does not create the output
    directory, the other branches do. *)
Example save_string_without_directory :
  (save_analysis_results sample_str (PStr "{}") "output" "analysis_results.json"
     (mkFS ∅ ∅)).2
  = Raise (FileNotFoundError "No such file or directory: 'output/analysis_results.json'") ∧
  (save_analysis_results sample_str PNone "output" "analysis_results.json"
     (mkFS ∅ ∅)).2
  = Ok "output/analysis_results.json".
Proof. split; vm_compute; reflexivity. Qed.

(** ** Further properties of the aggregation *)

#[global] Instance key_le_total : Total key_le.
Proof.
  intros a b. unfold key_le.
  destruct (decide (a.1.1 = b.1.1)) as [E|N].
  - rewrite E. destruct (Z.lt_trichotomy a.1.2 b.1.2) as [?|[?|?]];
      destruct (Z.le_ge_cases a.2 b.2); intuition lia.
  - destruct (total String.le a.1.1 b.1.1); intuition congruence.
Qed.

Lemma key3_aggregate k grp : key3 (aggregate k grp) = k.
Proof. by destruct k as [[??]?]. Qed.

Lemma key3_groupby_agg obs :
  key3 <$> groupby_agg obs = merge_sort key_le (remove_dups (obs_key <$> obs)).
Proof.
  unfold groupby_agg. rewrite <- list_fmap_compose.
  rewrite <- (list_fmap_id (merge_sort _ _)) at 2.
  apply list_fmap_ext. intros i k _. simpl. apply key3_aggregate.
Qed.

(** X1. The aggregates that the aggregation returns have pairwise
    distinct (station, year, month) keys and are listed by ascending
    key; the year-over-year calculator therefore gives the same result
    on every reordering of them. *)
Theorem aggregates_keyed_and_sorted to_datetime t1 t2 df aggs :
  transform_weather_data_with to_datetime t1 t2 df = Ok aggs →
  NoDup (key3 <$> aggs) ∧
  Sorted key_le (key3 <$> aggs) ∧
  (∀ l, l ≡ₚ aggs → calculate_yoy_delta l = calculate_yoy_delta aggs).
Proof.
  intros Ht. apply transform_Ok_inv in Ht as (dtc & tc & _ & _ & ->).
  rewrite key3_groupby_agg.
  assert (Hnd : NoDup (merge_sort key_le
                  (remove_dups (obs_key <$> omap (row_observation to_datetime dtc tc)
                                                 (rows df))))).
  { rewrite merge_sort_Permutation. apply NoDup_remove_dups. }
  split; [done|]. split; [apply Sorted_merge_sort; apply _|].
  intros l Hl. unfold calculate_yoy_delta. f_equal. symmetry.
  apply sorted_frame_unique; [|done]. by rewrite key3_groupby_agg.
Qed.

Lemma aggregates_keyed_and_sorted_witness :
  NoDup (key3 <$> transform_sample_aggregates).
Proof.
  exact (proj1 (aggregates_keyed_and_sorted parse_iso "Temp (°C)" "Mean Temp (°C)"
                  transform_sample transform_sample_aggregates transform_sample_run)).
Defined.





Lemma observation_label to_datetime dtc tc r o :
  row_observation to_datetime dtc tc r = Some o →
  obs_label o = pad4 (obs_year o) +:+ "-" +:+ pad2 (obs_month o).
Proof.
  unfold row_observation.
  destruct (cell r tc); try done. destruct (cell r "station_id"); try done.
  destruct (cell r dtc); try done. destruct (to_datetime s0); [|done].
  by intros [= <-].
Qed.

(** X3. The month label of every returned aggregate is the year of its
    key on four digits, a hyphen, and the month of its key on two
    digits. *)
Theorem aggregate_label_matches_key to_datetime t1 t2 df aggs a :
  transform_weather_data_with to_datetime t1 t2 df = Ok aggs →
  a ∈ aggs →
  date_month a = pad4 (year a) +:+ "-" +:+ pad2 (month a).
Proof.
  intros Ht Ha. apply transform_Ok_inv in Ht as (dtc & tc & _ & _ & ->).
  set (obs := omap (row_observation to_datetime dtc tc) (rows df)) in *.
  unfold groupby_agg in Ha. apply list_elem_of_fmap in Ha as (k & -> & Hk).
  rewrite merge_sort_Permutation, elem_of_remove_dups in Hk.
  apply list_elem_of_fmap in Hk as (o & Hko & Ho).
  assert (Hin : o ∈ group_of k obs) by (by apply list_elem_of_filter).
  destruct (group_of k obs) as [|o1 grp] eqn:Eg; [by inv Hin|].
  assert (Ho1 : o1 ∈ group_of k obs) by (rewrite Eg; left).
  apply list_elem_of_filter in Ho1 as [Hk1 Ho1].
  apply list_elem_of_omap in Ho1 as (r & _ & Hr).
  simpl. rewrite (observation_label _ _ _ _ _ Hr).
  rewrite <- Hk1. reflexivity.
Qed.

Lemma aggregate_label_matches_key_witness :
  let a := mkAggregate "12345" 2023 2 (1200 # 200) 5.9 6.1 "2023-02" in
  date_month a = pad4 (year a) +:+ "-" +:+ pad2 (month a).
Proof.
  intros a.
  apply (aggregate_label_matches_key parse_iso "Temp (°C)" "Mean Temp (°C)"
           transform_sample transform_sample_aggregates a transform_sample_run).
  unfold transform_sample_aggregates. subst a. right. left.
Defined.

(** ** Further properties of the year-over-year calculator *)

Lemma previous_in_group_None a seen :
  previous_in_group a seen = None ↔ series_key a ∉ series_key <$> seen.
Proof.
  unfold previous_in_group. induction seen as [|p seen IH].
  - simpl. split; [|done]. intros _ H. by inv H.
  - cbn [List.find]. rewrite fmap_cons. case_bool_decide as E.
    + split; [done|]. intros H. exfalso. apply H. rewrite E. left.
    + rewrite IH. split.
      * intros H H'. apply elem_of_cons in H' as [Heq|Hin]; [congruence|done].
      * intros H H'. apply H. by right.
Qed.

Lemma size_new_key `{Countable K} (k : K) (R S : gset K) :
  k ∉ S → size (({[k]} ∪ R) ∖ S) = Datatypes.S (size (R ∖ ({[k]} ∪ S))).
Proof.
  intros Hk.
  assert (E : ({[k]} ∪ R) ∖ S = {[k]} ∪ (R ∖ ({[k]} ∪ S))).
  { apply set_eq. intros x.
    rewrite !elem_of_union, !elem_of_difference, !elem_of_union, !elem_of_singleton.
    destruct (decide (x = k)) as [->|Hne]; tauto. }
  rewrite E, size_union, size_singleton; [done|].
  intros x. rewrite elem_of_singleton, elem_of_difference, elem_of_union,
    elem_of_singleton. intros -> [_ Hn]. apply Hn. by left.
Qed.

Lemma undefined_deltas_count (frame : list MonthlyAggregate) : ∀ seen,
  length (List.filter (fun r => is_none (temperature_celsius_yoy_avg r))
                      (group_diff seen frame))
  = size ((list_to_set (series_key <$> frame) : gset (string * Z))
          ∖ list_to_set (series_key <$> seen)).
Proof.
  induction frame as [|a rest IH]; intros seen.
  - simpl. by rewrite difference_disjoint_L, size_empty by set_solver.
  - cbn [group_diff List.filter temperature_celsius_yoy_avg].
    destruct (previous_in_group a seen) as [p|] eqn:Ep.
    + assert (Hin : series_key a ∈ series_key <$> seen).
      { destruct (decide (series_key a ∈ series_key <$> seen)) as [?|N]; [done|].
        apply previous_in_group_None in N. congruence. }
      simpl. rewrite IH. f_equal. rewrite !fmap_cons.
      apply set_eq. intros x.
      rewrite !elem_of_difference, ?elem_of_union, ?elem_of_singleton,
        !elem_of_list_to_set, ?elem_of_cons.
      fold (series_key <$> rest). split.
      * intros [Hx Hn]. split; [by right|]. intros Hs. apply Hn. by right.
      * intros [[->|Hx] Hn]; [done|]. split; [done|].
        intros [->|Hs]; done.
    + apply previous_in_group_None in Ep.
      simpl. rewrite IH. rewrite !fmap_cons, !list_to_set_cons.
      symmetry. apply size_new_key. by rewrite elem_of_list_to_set.
Qed.

(** X4. Whatever the input, the calculator returns as many rows as it
    is given, and the number of rows it leaves without a delta is the
    number of distinct (station, month) series of the input: in every
    series exactly one row, its first, has no delta. *)
Theorem one_undefined_delta_per_series (l : list MonthlyAggregate) :
  length (calculate_yoy_delta l) = length l ∧
  length (List.filter (fun r => is_none (temperature_celsius_yoy_avg r))
                      (calculate_yoy_delta l))
  = size (list_to_set (series_key <$> l) : gset (string * Z)).
Proof.
  unfold calculate_yoy_delta. split.
  - rewrite <- (length_fmap monthly), group_diff_monthly.
    by rewrite merge_sort_Permutation.
  - rewrite undefined_deltas_count. simpl.
    rewrite difference_empty_L. f_equal.
    apply set_eq. intros x. rewrite !elem_of_list_to_set.
    by rewrite merge_sort_Permutation.
Qed.

(** ** Further properties of the quality audit: outliers *)

















(** Eleven readings can hold an outlier: ten readings at 0 and one at
    11. *)
Example outlier_with_eleven_readings :
  outliers_3sigma (replicate 10 0%Q ++ [11%Q]) = 1%nat.
Proof. vm_compute. reflexivity. Qed.

(** ** Quality audit: the two copies, null counts, observed dates *)

Lemma null_counts_of_spec df c n :
  null_counts_of df !! c = Some n ↔
  c ∈ columns df ∧ n = null_count df c ∧ (0 < n)%nat.
Proof.
  unfold null_counts_of. split.
  - intros H. apply elem_of_list_to_map_2 in H.
    apply list_elem_of_omap in H as (c' & Hc' & H).
    destruct (0 <? null_count df c')%nat eqn:E; [|done].
    injection H as -> <-. apply Nat.ltb_lt in E. done.
  - intros (Hc & -> & Hn).
    apply elem_of_list_to_map_1'.
    + intros y Hy. apply list_elem_of_omap in Hy as (c' & _ & Hy).
      destruct (0 <? null_count df c')%nat; [|done].
      by injection Hy as -> <-.
    + apply list_elem_of_omap. exists c. split; [done|].
      apply Nat.ltb_lt in Hn. by rewrite Hn.
Qed.

Lemma null_count_le df c : (null_count df c ≤ length (rows df))%nat.
Proof. unfold null_count. apply List.filter_length_le. Qed.

Lemma null_count_pos df c :
  (0 < null_count df c)%nat ↔ ∃ r, r ∈ rows df ∧ cell r c = Null.
Proof.
  unfold null_count. split.
  - intros H.
    destruct (List.filter (fun r => is_null (cell r c)) (rows df)) as [|r rs] eqn:E;
      [simpl in H; lia|].
    assert (Hr : In r (List.filter (fun r => is_null (cell r c)) (rows df)))
      by (rewrite E; by left).
    apply List.filter_In in Hr as [Hr Hn]. exists r. split; [by apply list_elem_of_In|].
    by destruct (cell r c).
  - intros (r & Hr & Hn).
    assert (Hin : In r (List.filter (fun r => is_null (cell r c)) (rows df))).
    { apply List.filter_In. split; [by apply list_elem_of_In|]. by rewrite Hn. }
    destruct (List.filter _ _); [done|simpl; lia].
Qed.

Lemma WeatherUtils_null_counts to_datetime df sid yr report :
  WeatherUtils.check_data_quality to_datetime df sid yr = Ok report →
  WeatherUtils.null_counts report = null_counts_of df ∧
  WeatherUtils.record_count report = length (rows df).
Proof.
  intros Hrun. unfold WeatherUtils.check_data_quality in Hrun.
  apply bindR_Ok_inv in Hrun as (missing & _ & Hrun).
  apply bindR_Ok_inv in Hrun as (outliers & _ & Hrun).
  by injection Hrun as <-.
Qed.

(** X6. In a returned quality report a column is listed under
    [null_counts] exactly when at least one record has no value for it,
    and then with the number of such records, which is at least 1 and at
    most the report's record count; columns without nulls are not
    listed. *)
Theorem null_counts_of_report to_datetime df sid yr report :
  WeatherUtils.check_data_quality to_datetime df sid yr = Ok report →
  ∀ c,
    (∀ n, WeatherUtils.null_counts report !! c = Some n ↔
          c ∈ columns df ∧ n = null_count df c ∧ (0 < n)%nat) ∧
    (is_Some (WeatherUtils.null_counts report !! c) ↔
       c ∈ columns df ∧ ∃ r, r ∈ rows df ∧ cell r c = Null) ∧
    (∀ n, WeatherUtils.null_counts report !! c = Some n →
          (1 ≤ n ≤ WeatherUtils.record_count report)%nat).
Proof.
  intros Hrun c. apply WeatherUtils_null_counts in Hrun as [-> ->].
  split; [intros n; apply null_counts_of_spec|]. split.
  - split.
    + intros [n Hn]. apply null_counts_of_spec in Hn as (Hc & -> & Hn).
      split; [done|]. by apply null_count_pos.
    + intros [Hc Hr]. exists (null_count df c). apply null_counts_of_spec.
      split; [done|]. split; [done|]. by apply null_count_pos.
  - intros n Hn. apply null_counts_of_spec in Hn as (_ & -> & Hn).
    split; [lia|apply null_count_le].
Qed.

Lemma null_counts_of_report_witness :
  ∃ report,
    WeatherUtils.check_data_quality parse_iso quality_sample 12345 2023 = Ok report ∧
    WeatherUtils.null_counts report !! "Temp (°C)" = Some 1%nat ∧
    WeatherUtils.null_counts report !! "Date/Time" = None.
Proof.
  destruct (WeatherUtils.check_data_quality parse_iso quality_sample 12345 2023)
    as [report|e] eqn:Hrun; [|vm_compute in Hrun; discriminate].
  exists report. split; [reflexivity|].
  pose proof (null_counts_of_report parse_iso quality_sample 12345 2023 report Hrun) as H.
  split.
  - apply (proj1 (H "Temp (°C)")). split; [|split].
    + apply (bool_decide_unpack _). vm_compute. exact I.
    + vm_compute. reflexivity.
    + vm_compute. lia.
  - destruct (WeatherUtils.null_counts report !! "Date/Time") as [n|] eqn:E; [|reflexivity].
    apply (proj1 (H "Date/Time")) in E as (_ & -> & Hn).
    vm_compute in Hn. lia.
Defined.

Lemma outliers_3sigma_nil : outliers_3sigma [] = 0%nat.
Proof. reflexivity. Qed.

Lemma forallb_is_none_omap {A} (l : list (option A)) :
  forallb is_none l = true → omap id l = [].
Proof.
  induction l as [|[a|] l IH]; simpl; [done|done|]. intros H. by apply IH.
Qed.

(** X7. The two copies of the audit agree. On a batch without a
    'Date/Time (LST)' column, and without a 'Mean Temp (°C)' column
    unless it also has 'Temp (°C)', [data_extraction.check_data_quality]
    raises exactly when [weather_utils.check_data_quality] raises, with
    the same exception, and otherwise returns the same null counts, the
    same missing dates and the same outlier count, each of the last two
    being present exactly when its column is. *)
Theorem audit_copies_agree to_datetime df sid yr :
  has_column df "Date/Time (LST)" = false →
  (has_column df "Mean Temp (°C)" = true → has_column df "Temp (°C)" = true) →
  DataExtraction.check_data_quality to_datetime df =
  match WeatherUtils.check_data_quality to_datetime df sid yr with
  | Ok report =>
      Ok {| DataExtraction.null_counts := WeatherUtils.null_counts report;
            DataExtraction.missing_dates :=
              if has_column df "Date/Time"
              then Some (WeatherUtils.missing_dates report) else None;
            DataExtraction.temperature_outliers :=
              if has_column df "Temp (°C)"
              then Some (WeatherUtils.temperature_outliers report) else None |}
  | Raise e => Raise e
  end.
Proof.
  intros Hlst Hmean.
  unfold DataExtraction.check_data_quality, WeatherUtils.check_data_quality,
    resolve_column.
  rewrite Hlst.
  destruct (has_column df "Date/Time") eqn:Hd.
  - destruct (date_series to_datetime "Date/Time" df) as [dates|e]; [|done].
    cbn [bindR]. destruct (missing_dates_of dates) as [m|e]; [|done].
    cbn [bindR].
    destruct (has_column df "Temp (°C)") eqn:Ht.
    + destruct (numeric_series "Temp (°C)" df) as [temps|e]; [|done].
      cbn [bindR].
      destruct (forallb is_none temps) eqn:Hall; cbn [negb].
      * cbn [bindR]. by rewrite (forallb_is_none_omap _ Hall).
      * destruct (omap id temps) as [|t ts] eqn:Eo; cbn [length Nat.ltb Nat.leb bindR];
          [by rewrite outliers_3sigma_nil|done].
    + destruct (has_column df "Mean Temp (°C)"); [by discriminate Hmean|done].
  - cbn [bindR].
    destruct (has_column df "Temp (°C)") eqn:Ht.
    + destruct (numeric_series "Temp (°C)" df) as [temps|e]; [|done].
      cbn [bindR].
      destruct (forallb is_none temps) eqn:Hall; cbn [negb].
      * cbn [bindR]. by rewrite (forallb_is_none_omap _ Hall).
      * destruct (omap id temps) as [|t ts] eqn:Eo; cbn [length Nat.ltb Nat.leb bindR];
          [by rewrite outliers_3sigma_nil|done].
    + destruct (has_column df "Mean Temp (°C)"); [by discriminate Hmean|done].
Qed.

Lemma audit_copies_agree_witness :
  ∃ results,
    DataExtraction.check_data_quality parse_iso quality_sample = Ok results ∧
    DataExtraction.temperature_outliers results = Some 0%nat.
Proof.
  pose proof (audit_copies_agree parse_iso quality_sample 12345 2023) as H.
  destruct (WeatherUtils.check_data_quality parse_iso quality_sample 12345 2023)
    as [report|e] eqn:Hrun; [|vm_compute in Hrun; discriminate].
  eexists. split.
  - apply H; vm_compute; [reflexivity|discriminate].
  - vm_compute in Hrun. injection Hrun as <-. vm_compute. reflexivity.
Defined.






(** ** Loading the raw batches: what the loaded frame holds *)

Lemma process_file_Ok_inv (file : RawFile) (df : DataFrame) :
  process_file file = Ok df →
  ∃ raw s y,
    read_csv file = Ok raw ∧
    split "_" (remove_all ".csv" (basename (file_path file))) !! 1%nat = Some s ∧
    split "_" (remove_all ".csv" (basename (file_path file))) !! 2%nat = Some y ∧
    df = set_scalar (set_scalar raw "station_id" (Str s)) "data_year" (Str y).
Proof.
  unfold process_file, index. intros H.
  destruct (split "_" _ !! 1%nat) as [s|]; [|done].
  destruct (split "_" _ !! 2%nat) as [y|]; [|done].
  cbn [bindR] in H. destruct (read_csv file) as [raw|e]; [|done].
  injection H as <-. by exists raw, s, y.
Qed.

Lemma usable_elem (csv_files : list RawFile) (df : DataFrame) :
  df ∈ usable csv_files ↔ ∃ f, f ∈ csv_files ∧ process_file f = Ok df.
Proof.
  unfold usable. rewrite list_elem_of_omap. split.
  - intros (f & Hf & H). exists f. split; [done|].
    destruct (process_file f); by inv H.
  - intros (f & Hf & H). exists f. split; [done|]. by rewrite H.
Qed.

Lemma union_columns_elem (cols : list string) : ∀ acc c,
  c ∈ union_columns acc cols ↔ c ∈ acc ∨ c ∈ cols.
Proof.
  unfold union_columns.
  induction cols as [|x cols IH]; intros acc c; simpl.
  - rewrite elem_of_nil. tauto.
  - rewrite IH, elem_of_cons. case_bool_decide as Hx.
    + split; [tauto|]. intros [?|[->|?]]; tauto.
    + rewrite elem_of_app, elem_of_cons, elem_of_nil. tauto.
Qed.

Lemma union_columns_NoDup (cols : list string) : ∀ acc,
  NoDup acc → NoDup (union_columns acc cols).
Proof.
  unfold union_columns.
  induction cols as [|x cols IH]; intros acc Hacc; simpl; [done|].
  apply IH. case_bool_decide as Hx; [done|].
  apply NoDup_app. split; [done|]. split; [|apply NoDup_singleton].
  intros y Hy Hy'. apply elem_of_cons in Hy' as [->|Hy']; [done|by inv Hy'].
Qed.

Lemma concat_columns_elem (frames : list DataFrame) (c : string) :
  c ∈ columns (concat frames) ↔ ∃ df, df ∈ frames ∧ c ∈ columns df.
Proof.
  unfold concat. simpl.
  assert (G : ∀ acc, c ∈ foldl union_columns acc (columns <$> frames)
                     ↔ c ∈ acc ∨ ∃ df, df ∈ frames ∧ c ∈ columns df).
  { induction frames as [|d frames IH]; intros acc; simpl.
    - split; [tauto|]. intros [?|(df & Hdf & _)]; [done|by inv Hdf].
    - rewrite IH, union_columns_elem. split.
      + intros [[?|?]|(df & Hdf & Hc)]; [tauto| |].
        * right. exists d. split; [apply list_elem_of_here|done].
        * right. exists df. split; [by apply elem_of_cons; right|done].
      + intros [?|(df & Hdf & Hc)]; [tauto|].
        apply elem_of_cons in Hdf as [->|Hdf]; [tauto|].
        right. by exists df. }
  rewrite G, elem_of_nil. tauto.
Qed.

Lemma concat_columns_NoDup (frames : list DataFrame) :
  NoDup (columns (concat frames)).
Proof.
  unfold concat. simpl.
  assert (G : ∀ acc, NoDup acc → NoDup (foldl union_columns acc (columns <$> frames))).
  { induction frames as [|d frames IH]; intros acc Hacc; simpl; [done|].
    apply IH. by apply union_columns_NoDup. }
  apply G. constructor.
Qed.

Lemma concat_rows_length (frames : list DataFrame) :
  length (rows (concat frames)) = sum_list ((fun df => length (rows df)) <$> frames).
Proof.
  unfold concat. cbn [rows]. induction frames as [|d frames IH]; [done|].
  change (length (rows d ++ mjoin (rows <$> frames))
          = (length (rows d) + sum_list ((fun df => length (rows df)) <$> frames))%nat).
  by rewrite length_app, IH.
Qed.

Lemma load_weather_data_Ok_inv raw_data_dir csv_files df :
  (load_weather_data raw_data_dir csv_files).2 = Ok df →
  df = concat (usable csv_files) ∧ usable csv_files ≠ [].
Proof.
  unfold load_weather_data. destruct csv_files as [|f fs]; [done|].
  rewrite load_loop_spec.
  change ([] ++ usable (f :: fs)) with (usable (f :: fs)).
  destruct (usable (f :: fs)) as [|d ds]; [done|].
  intros [= <-]. done.
Qed.

Lemma columns_set_scalar df c v x :
  x ∈ columns (set_scalar df c v) ↔ x ∈ columns df ∨ x = c.
Proof.
  unfold set_scalar, has_column. simpl. case_bool_decide as Hc.
  - split; [tauto|]. intros [?| ->]; done.
  - rewrite elem_of_app, elem_of_cons, elem_of_nil. tauto.
Qed.

Lemma usable_cons f fs :
  usable (f :: fs)
  = match process_file f with Ok d => d :: usable fs | Raise _ => usable fs end.
Proof. unfold usable. simpl. by destruct (process_file f). Qed.

Lemma rows_usable (csv_files : list RawFile) :
  sum_list ((fun df => length (rows df)) <$> usable csv_files)
  = sum_list (rows_read <$> csv_files).
Proof.
  induction csv_files as [|f fs IH]; [done|].
  rewrite usable_cons, (fmap_cons rows_read).
  change (sum_list (rows_read f :: (rows_read <$> fs)))
    with (rows_read f + sum_list (rows_read <$> fs))%nat.
  rewrite <- IH. unfold rows_read.
  destruct (process_file f) as [d|e] eqn:Hp; [|done].
  apply process_file_Ok_inv in Hp as (raw & s & y & Hraw & _ & _ & ->).
  rewrite Hraw, fmap_cons.
  change (sum_list (?x :: ?l)) with (x + sum_list l)%nat.
  unfold set_scalar. cbn [rows]. by rewrite !length_fmap.
Qed.

(** X9. What a loaded frame holds. When the loader returns, every row
    of the result is a row of one of the files, as read, with the two
    fields [station_id] and [data_year] set to the second and third
    underscore-separated parts of that file's name (strings, never
    numbers); the result has as many rows as the processed files
    together; its columns, without duplicates, are [station_id],
    [data_year] and the columns of the processed files. *)
Theorem loaded_frame_contents raw_data_dir csv_files df :
  (load_weather_data raw_data_dir csv_files).2 = Ok df →
  (∀ r, r ∈ rows df →
     ∃ file raw r0 s y,
       file ∈ csv_files ∧ read_csv file = Ok raw ∧ r0 ∈ rows raw ∧
       split "_" (remove_all ".csv" (basename (file_path file))) !! 1%nat = Some s ∧
       split "_" (remove_all ".csv" (basename (file_path file))) !! 2%nat = Some y ∧
       r = <["data_year" := Str y]> (<["station_id" := Str s]> r0) ∧
       cell r "station_id" = Str s ∧ cell r "data_year" = Str y) ∧
  length (rows df) = sum_list (rows_read <$> csv_files) ∧
  NoDup (columns df) ∧
  (∀ c, c ∈ columns df ↔
        c = "station_id" ∨ c = "data_year" ∨
        ∃ file raw, file ∈ csv_files ∧ is_ok (process_file file) = true ∧
                    read_csv file = Ok raw ∧ c ∈ columns raw).
Proof.
  intros Hload. apply load_weather_data_Ok_inv in Hload as [-> Hne].
  split; [|split; [|split]].
  - intros r Hr. unfold concat in Hr. simpl in Hr.
    apply list_elem_of_join in Hr as (l & Hr & Hl).
    apply list_elem_of_fmap in Hl as (d & -> & Hd).
    apply usable_elem in Hd as (file & Hfile & Hp).
    apply process_file_Ok_inv in Hp as (raw & s & y & Hraw & Hs & Hy & ->).
    unfold set_scalar in Hr. simpl in Hr.
    rewrite <- list_fmap_compose in Hr.
    apply list_elem_of_fmap in Hr as (r0 & -> & Hr0).
    exists file, raw, r0, s, y. simpl.
    repeat split; try done.
    + unfold cell. rewrite lookup_insert_ne by done. by rewrite lookup_insert_eq.
    + unfold cell. by rewrite lookup_insert_eq.
  - rewrite concat_rows_length. apply rows_usable.
  - apply concat_columns_NoDup.
  - intros c. rewrite concat_columns_elem. split.
    + intros (d & Hd & Hc). apply usable_elem in Hd as (file & Hfile & Hp).
      pose proof Hp as Hp'.
      apply process_file_Ok_inv in Hp' as (raw & s & y & Hraw & _ & _ & ->).
      apply columns_set_scalar in Hc as [Hc| ->]; [|tauto].
      apply columns_set_scalar in Hc as [Hc| ->]; [|tauto].
      right; right. exists file, raw. by rewrite Hp.
    + assert (Hd : ∃ d, d ∈ usable csv_files).
      { destruct (usable csv_files) as [|d ds]; [done|].
        exists d. apply list_elem_of_here. }
      intros [->|[->|(file & raw & Hfile & Hok & Hraw & Hc)]].
      * destruct Hd as (d & Hd). exists d. split; [done|].
        apply usable_elem in Hd as (file & _ & Hp).
        apply process_file_Ok_inv in Hp as (raw & s & y & _ & _ & _ & ->).
        rewrite !columns_set_scalar. tauto.
      * destruct Hd as (d & Hd). exists d. split; [done|].
        apply usable_elem in Hd as (file & _ & Hp).
        apply process_file_Ok_inv in Hp as (raw & s & y & _ & _ & _ & ->).
        rewrite !columns_set_scalar. tauto.
      * destruct (process_file file) as [d|e] eqn:Hp; [|done].
        exists d. split; [apply usable_elem; by exists file|].
        apply process_file_Ok_inv in Hp as (raw' & s & y & Hraw' & _ & _ & ->).
        rewrite Hraw in Hraw'. injection Hraw' as <-.
        rewrite !columns_set_scalar. tauto.
Qed.

Lemma loaded_frame_contents_witness :
  ∃ df, (load_weather_data "raw_data" load_sample).2 = Ok df ∧
        length (rows df) = 4%nat ∧ NoDup (columns df).
Proof.
  destruct (load_weather_data "raw_data" load_sample).2 as [df|e] eqn:Hload;
    [|vm_compute in Hload; discriminate].
  exists df. split; [reflexivity|].
  destruct (loaded_frame_contents "raw_data" load_sample df Hload) as (_ & Hn & Hd & _).
  split; [|exact Hd]. rewrite Hn. vm_compute. reflexivity.
Defined.

(** ** From the file name of [fetch_weather_data] to the loader *)

Lemma string_app_assoc (s t u : string) : (s +:+ t) +:+ u = s +:+ (t +:+ u).
Proof.
  induction s as [|a s IH]; [done|].
  change (String a ((s +:+ t) +:+ u) = String a (s +:+ (t +:+ u))).
  by rewrite IH.
Qed.

Lemma free_app c s t : free c (s +:+ t) = free c s && free c t.
Proof. induction s as [|a s IH]; [done|]. simpl. by rewrite IH, andb_assoc. Qed.

Lemma split_go_segment (sep : ascii) (s rest : string) : ∀ cur,
  free sep s = true →
  split_go sep cur (s +:+ String sep rest)
  = String.rev_app cur s :: split_go sep "" rest.
Proof.
  induction s as [|a s IH]; intros cur Hs.
  - simpl. by rewrite Ascii.eqb_refl.
  - simpl in Hs. apply andb_true_iff in Hs as [Ha Hs].
    apply negb_true_iff in Ha. simpl. rewrite Ha. by rewrite IH.
Qed.

Lemma split_go_last_segment (sep : ascii) (s : string) : ∀ cur,
  free sep s = true → split_go sep cur s = [String.rev_app cur s].
Proof.
  induction s as [|a s IH]; intros cur Hs; [done|].
  simpl in Hs. apply andb_true_iff in Hs as [Ha Hs].
  apply negb_true_iff in Ha. simpl. rewrite Ha. by rewrite IH.
Qed.

Lemma split_go_nonempty sep s : ∀ cur, split_go sep cur s ≠ [].
Proof.
  induction s as [|a s IH]; intros cur; simpl; [done|].
  destruct (Ascii.eqb a sep); [done|apply IH].
Qed.

Lemma last_split_go (sep : ascii) (d name : string) : ∀ cur,
  free sep name = true →
  last (split_go sep cur (d +:+ String sep name)) = Some name.
Proof.
  induction d as [|a d IH]; intros cur Hn.
  - simpl. rewrite Ascii.eqb_refl, split_go_last_segment by done. done.
  - simpl. destruct (Ascii.eqb a sep); [|by apply IH].
    rewrite last_cons, IH; done.
Qed.

Lemma basename_join (d name : string) :
  free "/" name = true → basename (d +:+ String "/" name) = name.
Proof. intros H. unfold basename, split. by rewrite last_split_go. Qed.

Lemma prefix_cons_ne (a b : ascii) (s t : string) :
  a ≠ b → String.prefix (String a s) (String b t) = false.
Proof.
  intros Hab.
  change (String.prefix (String a s) (String b t))
    with (match ascii_dec a b with left _ => String.prefix s t | right _ => false end).
  by destruct (ascii_dec a b).
Qed.

Lemma remove_suffix (x : string) :
  free "." x = true → remove_all ".csv" (x +:+ ".csv") = x.
Proof.
  unfold remove_all. induction x as [|a x IH]; intros Hx; [done|].
  simpl in Hx. apply andb_true_iff in Hx as [Ha Hx].
  apply negb_true_iff, Ascii.eqb_neq in Ha.
  assert (Ha' : "."%char ≠ a) by congruence.
  change (remove_go ".csv" 0 (String a x +:+ ".csv"))
    with (if String.prefix ".csv" (String a (x +:+ ".csv"))
          then remove_go ".csv" 3 (x +:+ ".csv")
          else String a (remove_go ".csv" 0 (x +:+ ".csv"))).
  rewrite prefix_cons_ne by done. by rewrite IH.
Qed.

Lemma split_station_name (s y : string) :
  free "_" s = true → free "_" y = true →
  split "_" ("station" +:+ String "_" (s +:+ String "_" y)) = ["station"; s; y].
Proof.
  intros Hs Hy. unfold split.
  rewrite split_go_segment by done.
  rewrite split_go_segment by done.
  by rewrite split_go_last_segment.
Qed.

(** The decimal notation of an integer has none of the characters the
    loader cuts file names at. *)
Lemma pretty_N_char_free (c : ascii) (x : N) :
  c = "_"%char ∨ c = "."%char ∨ c = "/"%char →
  Ascii.eqb (pretty_N_char x) c = false.
Proof.
  intros [->|[->| ->]]; unfold pretty_N_char; by repeat case_match.
Qed.

Lemma pretty_N_go_free (c : ascii) (x : N) : ∀ s,
  c = "_"%char ∨ c = "."%char ∨ c = "/"%char →
  free c s = true → free c (pretty_N_go x s) = true.
Proof.
  induction (N.lt_wf_0 x) as [x _ IH]; intros s Hc Hs.
  assert (x = 0 ∨ 0 < x)%N as [->|Hx] by lia.
  - by rewrite pretty_N_go_0.
  - rewrite pretty_N_go_step by done. apply IH; [by apply N.div_lt|done|].
    simpl. by rewrite pretty_N_char_free, Hs.
Qed.

Lemma pretty_Z_free (c : ascii) (z : Z) :
  c = "_"%char ∨ c = "."%char ∨ c = "/"%char → free c (pretty z) = true.
Proof.
  intros Hc. unfold pretty, pretty_Z.
  assert (Hpos : ∀ p : positive, free c (pretty p) = true).
  { intros p. unfold pretty, pretty_positive, pretty, pretty_N.
    case_decide; [done|]. by apply pretty_N_go_free. }
  destruct z as [|p|p]; [by destruct Hc as [->|[->| ->]]|apply Hpos|].
  rewrite free_app, Hpos. by destruct Hc as [->|[->| ->]].
Qed.

Lemma station_file_name output_dir station_id year :
  split "_" (remove_all ".csv" (basename (station_file output_dir station_id year)))
  = ["station"; pretty station_id; pretty year].
Proof.
  unfold station_file.
  change (output_dir +:+ "/station_" +:+ pretty station_id +:+ "_" +:+ pretty year +:+ ".csv")
    with (output_dir +:+ String "/"
            ("station_" +:+ pretty station_id +:+ "_" +:+ pretty year +:+ ".csv")).
  rewrite basename_join.
  2:{ rewrite !free_app, !pretty_Z_free by tauto. done. }
  assert (E : "station_" +:+ pretty station_id +:+ "_" +:+ pretty year +:+ ".csv"
              = ("station_" +:+ pretty station_id +:+ "_" +:+ pretty year) +:+ ".csv").
  { by rewrite !string_app_assoc. }
  rewrite E, remove_suffix.
  2:{ rewrite !free_app, !pretty_Z_free by tauto. done. }
  apply (split_station_name (pretty station_id) (pretty year));
    apply pretty_Z_free; tauto.
Qed.

(** X10. The loader reads back what the extraction wrote into the file
    name: a file saved by [fetch_weather_data] under
    [{output_dir}/station_{station_id}_{year}.csv], for any integers
    [station_id] and [year] and any directory, is processed by
    [load_weather_data] with [station_id] set to the decimal text of the
    station and [data_year] to the decimal text of the year, on every
    row; it is skipped only when [pd.read_csv] raises. *)
Theorem fetched_file_name_read_back output_dir station_id year (csv : Result DataFrame) :
  process_file (mkFile (station_file output_dir station_id year) csv)
  = (let* df := csv in
     Ok (set_scalar (set_scalar df "station_id" (Str (pretty station_id)))
                    "data_year" (Str (pretty year)))) ∧
  (∀ df r, process_file (mkFile (station_file output_dir station_id year) csv) = Ok df →
           r ∈ rows df →
           cell r "station_id" = Str (pretty station_id) ∧
           cell r "data_year" = Str (pretty year)).
Proof.
  assert (Hp : process_file (mkFile (station_file output_dir station_id year) csv)
    = (let* df := csv in
       Ok (set_scalar (set_scalar df "station_id" (Str (pretty station_id)))
                      "data_year" (Str (pretty year))))).
  { unfold process_file. cbn [file_path read_csv].
    rewrite station_file_name. done. }
  split; [exact Hp|].
  intros df r Hdf Hr. rewrite Hp in Hdf. destruct csv as [raw|e]; [|done].
  injection Hdf as <-. unfold set_scalar in Hr. cbn [rows] in Hr.
  rewrite <- list_fmap_compose in Hr.
  apply list_elem_of_fmap in Hr as (r0 & -> & _). unfold cell. simpl.
  rewrite lookup_insert_eq, lookup_insert_ne by done. by rewrite lookup_insert_eq.
Qed.

Example fetched_file_name_sample :
  split "_" (remove_all ".csv" (basename (station_file "raw_data" 26953 2023)))
  = ["station"; "26953"; "2023"].
Proof. vm_compute. reflexivity. Qed.

Lemma fetched_file_name_read_back_witness :
  process_file (mkFile (station_file "raw_data" 26953 2023) (Ok quality_sample))
  = Ok (set_scalar (set_scalar quality_sample "station_id" (Str "26953"))
                   "data_year" (Str "2023")).
Proof.
  exact (proj1 (fetched_file_name_read_back "raw_data" 26953 2023 (Ok quality_sample))).
Defined.

(** ** The dimension table and the transformation entry point *)


Lemma find_missing_None (df : DataFrame) (cols : list string) :
  List.find (fun col => negb (has_column df col)) cols = None
  ↔ ∀ c, c ∈ cols → c ∈ columns df.
Proof.
  induction cols as [|x cols IH]; simpl.
  - split; [|done]. intros _ c Hc. by inv Hc.
  - unfold has_column at 1. case_bool_decide as Hx; simpl.
    + rewrite IH. split.
      * intros H c Hc. apply elem_of_cons in Hc as [->|Hc]; auto.
      * intros H c Hc. apply H. by right.
    + split; [done|]. intros H. exfalso. apply Hx, H. by left.
Qed.








Example geonames_sample_loaded :
  match load_geonames_data geonames_sample with
  | Ok g => column_values "climate_id" (rows g)
  | Raise _ => []
  end = [Str "7025250"].
Proof. vm_compute. reflexivity. Qed.





(** ** The retry loop of the extraction *)

Ltac fetch_case :=
  cbn; repeat split; try done; try lia;
  try (intros n Hn;
       first [ lia
             | assert (n = 0)%nat as -> by lia; eauto
             | assert (n = 0 ∨ n = 1)%nat as [-> | ->] by lia; eauto ]).

(** X13. The retry loop of [fetch_weather_data]. Whatever the server
    does, the call makes between one and three requests and sleeps 2
    seconds after a first failed request and 4 after a second one, never
    longer; every pass but the last raised a [requests] exception; the
    call ends with the value of the last pass, with the exception of the
    last pass when that is not a [requests] exception (no retry then),
    or, after exactly three requests, with the [requests] exception of
    the third. It never gets to the [return None] after the loop. *)
Theorem fetch_retry_behaviour {A} (body : nat → Attempt A) :
  let run := fetch_weather_data body in
  (1 ≤ requests_made run ≤ 3)%nat ∧
  slept run = take (requests_made run - 1) [2; 4]%Z ∧
  (∀ n, (n < requests_made run - 1)%nat → ∃ msg, body n = RequestException msg) ∧
  match fetch_end run with
  | Returned a => body (requests_made run - 1)%nat = Fetched a
  | RaisedOther e => body (requests_made run - 1)%nat = OtherException e
  | RaisedRequest msg => requests_made run = 3%nat ∧ body 2%nat = RequestException msg
  | ReturnedNone => False
  end.
Proof.
  unfold fetch_weather_data, max_retries. cbn [fetch_loop].
  destruct (body 0%nat) as [a0|m0|e0] eqn:E0; [fetch_case| |fetch_case].
  destruct (body 1%nat) as [a1|m1|e1] eqn:E1; [fetch_case| |fetch_case].
  destruct (body 2%nat) as [a2|m2|e2] eqn:E2; fetch_case.
Qed.

Example fetch_after_one_failure :
  fetch_weather_data (fun n => if (n <? 1)%nat then RequestException "503" else Fetched n)
  = mkRun 2 [2%Z] (Returned 1%nat).
Proof. reflexivity. Qed.

(** ** The orchestration callbacks *)

Lemma collect_quality_results_unfold xcom :
  collect_quality_results xcom
  = (s ← DEFAULT_STATIONS; y ← DEFAULT_YEARS;
     match xcom !! quality_key s y with
     | Some q => [(report_key s y, q)]
     | None => []
     end).
Proof. reflexivity. Qed.

Lemma collect_quality_results_elem xcom k q :
  (k, q) ∈ collect_quality_results xcom ↔
  ∃ s y, s ∈ DEFAULT_STATIONS ∧ y ∈ DEFAULT_YEARS ∧
         k = report_key s y ∧ xcom !! quality_key s y = Some q.
Proof.
  rewrite collect_quality_results_unfold, list_elem_of_bind. split.
  - intros (s & H & Hs). apply list_elem_of_bind in H as (y & H & Hy).
    exists s, y. destruct (xcom !! quality_key s y) as [q'|]; [|by inv H].
    apply list_elem_of_singleton in H. by injection H as -> ->.
  - intros (s & y & Hs & Hy & -> & Hq). exists s. split; [|done].
    apply list_elem_of_bind. exists y. split; [|done].
    rewrite Hq. apply list_elem_of_here.
Qed.

Lemma report_key_inj s y s' y' :
  s ∈ DEFAULT_STATIONS → y ∈ DEFAULT_YEARS →
  s' ∈ DEFAULT_STATIONS → y' ∈ DEFAULT_YEARS →
  report_key s y = report_key s' y' → s = s' ∧ y = y'.
Proof.
  unfold DEFAULT_STATIONS, DEFAULT_YEARS.
  rewrite !elem_of_cons, !elem_of_nil.
  intros [->|[->|[]]] [->|[->|[]]] [->|[->|[]]] [->|[->|[]]] H;
    vm_compute in H; done.
Qed.

(** X14. The quality gate of the DAG. The sensor [check_extractions]
    succeeds, and the branch [check_data_quality] chooses
    [run_transformation], as soon as the report of at least one of the
    four default (station, year) extractions is in XCom, not when all
    of them are; the transformation is skipped exactly when none is
    there. The saved report holds exactly the reports that are there,
    each once under its own key, so at most four. *)
Theorem quality_gate (xcom : gmap string WeatherUtils.QualityReport) :
  (branch_on_quality xcom = "run_transformation" ↔
     ∃ s y, s ∈ DEFAULT_STATIONS ∧ y ∈ DEFAULT_YEARS ∧
            is_Some (xcom !! quality_key s y)) ∧
  (branch_on_quality xcom = "skip_transformation" ↔
     ∀ s y, s ∈ DEFAULT_STATIONS → y ∈ DEFAULT_YEARS →
            xcom !! quality_key s y = None) ∧
  ((check_extractions xcom).1 = true ↔ branch_on_quality xcom = "run_transformation") ∧
  (∀ saved, (check_extractions xcom).2 = Some saved →
     (∀ k q, (k, q) ∈ saved ↔
             ∃ s y, s ∈ DEFAULT_STATIONS ∧ y ∈ DEFAULT_YEARS ∧
                    k = report_key s y ∧ xcom !! quality_key s y = Some q) ∧
     NoDup saved.*1 ∧ (1 ≤ length saved ≤ 4)%nat).
Proof.
  assert (Hnil : collect_quality_results xcom = [] ↔
                 ∀ s y, s ∈ DEFAULT_STATIONS → y ∈ DEFAULT_YEARS →
                        xcom !! quality_key s y = None).
  { split.
    - intros E s y Hs Hy. destruct (xcom !! quality_key s y) as [q|] eqn:Eq; [|done].
      assert (H : (report_key s y, q) ∈ collect_quality_results xcom)
        by (apply collect_quality_results_elem; by exists s, y).
      rewrite E in H. by inv H.
    - intros H. destruct (collect_quality_results xcom) as [|[k q] l] eqn:E; [done|].
      assert (Hin : (k, q) ∈ collect_quality_results xcom)
        by (rewrite E; apply list_elem_of_here).
      apply collect_quality_results_elem in Hin as (s & y & Hs & Hy & _ & Hq).
      rewrite (H s y Hs Hy) in Hq. done. }
  assert (Hlen : (length (collect_quality_results xcom) ≤ 4)%nat ∧
                 NoDup (collect_quality_results xcom).*1).
  { rewrite collect_quality_results_unfold. unfold DEFAULT_STATIONS, DEFAULT_YEARS.
    cbn [mbind list_bind app].
    repeat match goal with
    | |- context [xcom !! ?k] => destruct (xcom !! k)
    end; cbn [app length fmap list_fmap fst]; (split; [lia|]);
      apply (bool_decide_unpack _); vm_compute; exact I. }
  split; [|split; [|split]].
  - unfold branch_on_quality. split.
    + intros Hb. destruct (collect_quality_results xcom) as [|[k q] l] eqn:E; [done|].
      assert (Hin : (k, q) ∈ collect_quality_results xcom)
        by (rewrite E; apply list_elem_of_here).
      apply collect_quality_results_elem in Hin as (s & y & Hs & Hy & _ & Hq).
      exists s, y. by rewrite Hq.
    + intros (s & y & Hs & Hy & [q Hq]).
      destruct (collect_quality_results xcom) as [|? ?] eqn:E; [|done].
      rewrite (proj1 Hnil eq_refl s y Hs Hy) in Hq. done.
  - unfold branch_on_quality. rewrite <- Hnil.
    by destruct (collect_quality_results xcom).
  - unfold check_extractions, branch_on_quality.
    by destruct (collect_quality_results xcom).
  - intros saved Hs. unfold check_extractions in Hs.
    destruct (collect_quality_results xcom) as [|p l] eqn:E; [done|].
    injection Hs as <-. split; [|split].
    + intros k q. rewrite <- E. apply collect_quality_results_elem.
    + apply Hlen.
    + split; [simpl; lia|apply Hlen].
Qed.

(** ** The save step and the file system *)






Section SaveCallbackProperties.

Variable py_str : PyVal → string.


End SaveCallbackProperties.

Example save_callback_fallback :
  (get_analysis_results_and_save sample_str
     (Ok (PDict [(PStr "extreme_high_temps", PObject "<sqlite3.Cursor object>")]))
     (mkFS ∅ ∅)).2
  = Ok "output/analysis_results_fallback.json".
Proof. vm_compute. reflexivity. Qed.

Section AnalysisSaved.

Variable py_str : PyVal → string.




End AnalysisSaved.

(** ** The analytical queries: what is left out *)

#[global] Instance order_desc_trans col : Transitive (order_desc col).
Proof. intros a b c. unfold order_desc. intros H1 H2. by transitivity (cell b col). Qed.

#[global] Instance order_asc_trans col : Transitive (order_asc col).
Proof. intros a b c. unfold order_asc. intros H1 H2. by transitivity (cell b col). Qed.

(** [ORDER BY ... LIMIT n] splits the table into the rows it returns
    and the rows it leaves out, and every row returned comes before
    every row left out. *)
Lemma order_by_limit (R : relation Row) `{!RelDecision R, !Transitive R, !Total R}
    (n : nat) (table : list Row) :
  let sorted := merge_sort R table in
  table ≡ₚ take n sorted ++ drop n sorted ∧
  length (take n sorted) = (n `min` length table)%nat ∧
  (∀ t r, t ∈ take n sorted → r ∈ drop n sorted → R t r).
Proof.
  intros sorted. split; [|split].
  - rewrite take_drop. subst sorted. by rewrite merge_sort_Permutation.
  - rewrite length_take. subst sorted. by rewrite merge_sort_Permutation.
  - intros t r Ht Hr.
    assert (Hs : StronglySorted R (take n sorted ++ drop n sorted)).
    { rewrite take_drop. by apply StronglySorted_merge_sort. }
    by apply (StronglySorted_app_1_elem_of R _ _ t r Hs).
Qed.



Lemma run_sql_queries_Ok_inv (weather_data : DataFrame) (results : QueryResults) :
  run_sql_queries weather_data = Ok results →
  rows (extreme_high_temps results)
  = select_as [("station_name", "station_name"); ("date_month", "date_month");
               ("temperature_celsius_max", "max_temperature")]
      <$> take 10 (merge_sort (order_desc "temperature_celsius_max") (rows weather_data)) ∧
  rows (extreme_low_temps results)
  = select_as [("station_name", "station_name"); ("date_month", "date_month");
               ("temperature_celsius_min", "min_temperature")]
      <$> take 10 (merge_sort (order_asc "temperature_celsius_min") (rows weather_data)) ∧
  columns (extreme_high_temps results) = ["station_name"; "date_month"; "max_temperature"] ∧
  columns (extreme_low_temps results) = ["station_name"; "date_month"; "min_temperature"].
Proof.
  unfold run_sql_queries, query4, query5. intros H.
  do 3 (apply bindR_Ok_inv in H as (? & _ & H)).
  apply bindR_Ok_inv in H as (high & Hh & H).
  apply bindR_Ok_inv in Hh as (? & _ & Hh). injection Hh as <-.
  apply bindR_Ok_inv in H as (low & Hl & H).
  apply bindR_Ok_inv in Hl as (? & _ & Hl). injection Hl as <-.
  by injection H as <-.
Qed.

(** X17. The two extreme-temperature results are extreme. When the
    queries return, the table splits into the rows that
    [extreme_high_temps] is made of, ten or all of them when there are
    fewer, and the rows left out, and no row left out has a higher
    maximum temperature than a row taken, in SQLite's order (NULL below
    every number); likewise no row left out of [extreme_low_temps] has
    a lower minimum temperature than a row taken. Each result row
    carries the station name, the month label and the temperature of
    the row it is made of. *)
Theorem extreme_queries_are_extreme (weather_data : DataFrame) (results : QueryResults) :
  run_sql_queries weather_data = Ok results →
  (∃ taken left_out,
     rows weather_data ≡ₚ taken ++ left_out ∧
     length taken = (10 `min` length (rows weather_data))%nat ∧
     (∀ t r, t ∈ taken → r ∈ left_out →
             sqlite_le (cell r "temperature_celsius_max") (cell t "temperature_celsius_max")) ∧
     column_values "max_temperature" (rows (extreme_high_temps results))
       = column_values "temperature_celsius_max" taken ∧
     column_values "station_name" (rows (extreme_high_temps results))
       = column_values "station_name" taken ∧
     column_values "date_month" (rows (extreme_high_temps results))
       = column_values "date_month" taken) ∧
  (∃ taken left_out,
     rows weather_data ≡ₚ taken ++ left_out ∧
     length taken = (10 `min` length (rows weather_data))%nat ∧
     (∀ t r, t ∈ taken → r ∈ left_out →
             sqlite_le (cell t "temperature_celsius_min") (cell r "temperature_celsius_min")) ∧
     column_values "min_temperature" (rows (extreme_low_temps results))
       = column_values "temperature_celsius_min" taken ∧
     column_values "station_name" (rows (extreme_low_temps results))
       = column_values "station_name" taken ∧
     column_values "date_month" (rows (extreme_low_temps results))
       = column_values "date_month" taken).
Proof.
  intros Hrun. apply run_sql_queries_Ok_inv in Hrun as (Hh & Hl & _ & _).
  assert (Hval : ∀ (sel : list (string * string)) (src alias : string) (l : list Row),
            NoDup sel.*2 → (src, alias) ∈ sel →
            column_values alias (select_as sel <$> l) = column_values src l).
  { intros sel src alias l Hnd Hin. unfold column_values.
    rewrite <- list_fmap_compose. apply list_fmap_ext. intros i r _. simpl.
    unfold select_as, cell at 1.
    erewrite elem_of_list_to_map_1; [done| |].
    - by rewrite <- list_fmap_compose.
    - apply list_elem_of_fmap. by exists (src, alias). }
  split.
  - destruct (order_by_limit (order_desc "temperature_celsius_max") 10 (rows weather_data))
      as (Hp & Hn & Hord).
    eexists _, _. split; [exact Hp|]. split; [exact Hn|]. split; [exact Hord|].
    rewrite Hh. repeat split; apply Hval;
      apply (bool_decide_unpack _); vm_compute; exact I.
  - destruct (order_by_limit (order_asc "temperature_celsius_min") 10 (rows weather_data))
      as (Hp & Hn & Hord).
    eexists _, _. split; [exact Hp|]. split; [exact Hn|]. split; [exact Hord|].
    rewrite Hl. repeat split; apply Hval;
      apply (bool_decide_unpack _); vm_compute; exact I.
Qed.

Lemma extreme_queries_are_extreme_witness :
  ∃ results taken left_out,
    run_sql_queries sql_sample = Ok results ∧
    rows sql_sample ≡ₚ taken ++ left_out ∧ length taken = 10%nat.
Proof.
  destruct (run_sql_queries sql_sample) as [results|e] eqn:Hrun;
    [|vm_compute in Hrun; discriminate].
  destruct (proj1 (extreme_queries_are_extreme sql_sample results Hrun))
    as (taken & left_out & Hp & Hn & _).
  exists results, taken, left_out. split; [reflexivity|]. split; [exact Hp|].
  rewrite Hn. vm_compute. reflexivity.
Defined.


(** ** The dimension join: columns that both frames have *)

Lemma ends_with_app (x s : string) : ends_with s (x +:+ s) = true.
Proof.
  induction x as [|a x IH].
  - change ("" +:+ s) with s. destruct s; simpl; by rewrite ?Ascii.eqb_refl, ?String.eqb_refl.
  - change (String a x +:+ s) with (String a (x +:+ s)).
    cbn [ends_with]. rewrite IH. apply orb_true_r.
Qed.

Lemma final_columns_no_suffix (c x s : string) :
  c ∈ final_columns → s = "_x" ∨ s = "_y" → x +:+ s ≠ c.
Proof.
  intros Hc Hs Heq.
  pose proof (ends_with_app x s) as He. rewrite Heq in He.
  unfold final_columns in Hc.
  repeat (apply elem_of_cons in Hc as [->|Hc];
          [destruct Hs as [-> | ->]; vm_compute in He; discriminate|]).
  by inv Hc.
Qed.

(** X19. The join fails on a shared column. When one of the eleven
    output columns is a column of both frames, of the monthly frame and
    of the dimension table, the merge renames both copies (suffixes
    [_x] and [_y]), the column is missing from the combined frame, and
    the join raises [ValueError] for a required column instead of
    returning. *)
Theorem join_rejects_shared_column (weather_df geonames_df : DataFrame) (c : string) :
  c ∈ final_columns → c ∈ columns weather_df → c ∈ columns geonames_df →
  ∃ col, col ∈ final_columns ∧
         returned (join_weather_and_geonames weather_df geonames_df)
         = Raise (ValueError ("Required column '" +:+ col +:+
                              "' not found in combined data")).
Proof.
  intros Hc Hw Hg.
  destruct (join_outcome weather_df geonames_df) as [H|(final & Hret & _)]; [done|].
  exfalso. rewrite join_returned in Hret. cbv zeta in Hret.
  set (w := set_scalar weather_df "join_key" (Num 1)) in *.
  set (g := set_scalar geonames_df "join_key" (Num 1)) in *.
  destruct (List.find _ final_columns) as [col|] eqn:E; [done|].
  pose proof (proj1 (find_missing_None _ _) E c Hc) as Hin.
  assert (Hne : c ≠ "join_key").
  { intros ->. revert Hc. apply (bool_decide_unpack _). vm_compute. exact I. }
  assert (Hov : overlaps "join_key" w g c = true).
  { unfold overlaps, has_column.
    rewrite (proj2 (String.eqb_neq _ _) Hne).
    rewrite !bool_decide_eq_true_2; [done| |];
      apply columns_set_scalar; by left. }
  unfold crossed in Hin. cbn [columns] in Hin.
  apply list_elem_of_In, List.filter_In in Hin as [Hin _].
  apply list_elem_of_In, elem_of_app in Hin as [Hin|Hin];
    apply list_elem_of_fmap in Hin as (x & Hx & _).
  - unfold left_label in Hx. destruct (overlaps "join_key" w g x) eqn:Ex.
    + symmetry in Hx. by apply final_columns_no_suffix in Hx; [|done|left].
    + subst x. by rewrite Hov in Ex.
  - unfold right_label in Hx. destruct (overlaps "join_key" w g x) eqn:Ex.
    + symmetry in Hx. by apply final_columns_no_suffix in Hx; [|done|right].
    + subst x. by rewrite Hov in Ex.
Qed.

Lemma join_rejects_shared_column_witness :
  ∃ col, returned (join_weather_and_geonames
                     (mkFrame (yoy_columns ++ ["latitude"]) []) join_sample_geonames)
         = Raise (ValueError ("Required column '" +:+ col +:+
                              "' not found in combined data")).
Proof.
  destruct (join_rejects_shared_column (mkFrame (yoy_columns ++ ["latitude"]) [])
              join_sample_geonames "latitude") as (col & _ & H).
  - apply (bool_decide_unpack _). vm_compute. exact I.
  - apply (bool_decide_unpack _). vm_compute. exact I.
  - apply (bool_decide_unpack _). vm_compute. exact I.
  - by exists col.
Defined.
